(** * sora_runner.py: a shallow embedding and its checked properties

    The script drives a browser through Selenium.  Everything the script
    does is a sequence of calls into the outside world (the browser, the
    file system, the clock, the standard streams) glued together with
    Python's [try]/[except]/[finally], early [return]s and one [while]
    loop.  The embedding keeps that shape:

    - the outside world is an interface ([Host]) whose answers are
      arbitrary: every call may return a value or raise, and takes some
      non-negative time; what [time.time()] shows of the time, and the
      float arithmetic on such readings, are the host's as well;
    - the script's functions are written in a state-and-exception monad
      over a [World] that holds the host, the clock, both output streams
      and a chronological record of the calls made;
    - statement blocks are computations of an optional return value, so
      that [return] inside [try] reads as in the source.

    Modelling conventions.  The world's clock counts milliseconds
    ([Z]); [time.sleep x] advances it by exactly [x].  Paths are read
    and written as pathlib does on POSIX.  Only exceptions
    deriving from Python's [Exception] are modelled (Selenium's all do);
    asynchronous interrupts are outside the model.  The module-level
    [load_dotenv] attempt happens before [main] and is part of the
    arbitrary initial world. *)

From Stdlib Require Import ZArith NArith List String Ascii Bool Lia.
From Stdlib Require Import DecimalString RelationClasses.
Import ListNotations.

Local Open Scope string_scope.
Local Open Scope Z_scope.
Local Open Scope list_scope.

(** ** Python values the script handles *)

(** Exceptions, by class.  [TimeoutException] and
    [ElementClickInterceptedException] are the two classes the script
    names; every other subclass of [Exception] is [OtherException]. *)
Inductive exn : Type :=
| TimeoutException (msg : string)
| ElementClickInterceptedException (msg : string)
| OtherException (msg : string).

(** [str(e)], as interpolated by the f-strings of the script. *)
Definition exn_str (e : exn) : string :=
  match e with
  | TimeoutException m => m
  | ElementClickInterceptedException m => m
  | OtherException m => m
  end.

Inductive res (A : Type) : Type :=
| Ok (a : A)
| Raise (e : exn).
Arguments Ok {A} a.
Arguments Raise {A} e.

(** [pathlib.Path] values, built the two ways the script builds them. *)
Inductive Path : Type :=
| PathOf (s : string)
| PathJoin (parent : Path) (child : string).

(** How pathlib reads a string, POSIX flavour: the pieces between
    slashes, without the empty ones and the dots, and the root, which is
    ["/"], or ["//"] for exactly two leading slashes, or nothing. *)
Fixpoint path_pieces (s : string) : list string :=
  match s with
  | EmptyString => [EmptyString]
  | String c s' =>
      if Ascii.eqb c "/" then EmptyString :: path_pieces s'
      else match path_pieces s' with
           | piece :: pieces => String c piece :: pieces
           | [] => [String c EmptyString]
           end
  end.

Definition path_parts (s : string) : list string :=
  filter (fun piece => negb (String.eqb piece "" || String.eqb piece "."))
         (path_pieces s).

Definition path_root (s : string) : string :=
  if (String.prefix "//" s && negb (String.prefix "///" s))%bool then "//"
  else if String.prefix "/" s then "/"
  else "".

(** Root and parts of a path; joining an absolute child replaces the
    parent. *)
Fixpoint path_parse (p : Path) : string * list string :=
  match p with
  | PathOf s => (path_root s, path_parts s)
  | PathJoin parent child =>
      match path_root child with
      | EmptyString =>
          let (root, parts) := path_parse parent in
          (root, parts ++ path_parts child)
      | root => (root, path_parts child)
      end
  end.

(** [str(path)], POSIX flavour: the root, then the parts with a slash
    between them; ["."] for the empty path. *)
Definition path_str (p : Path) : string :=
  match path_parse p with
  | (EmptyString, []) => "."
  | (root, parts) => (root ++ String.concat "/" parts)%string
  end.

Inductive By : Type := CSS_SELECTOR | XPATH | TAG_NAME.
Definition Locator : Type := (By * string)%type.

Definition Driver : Type := nat.
Definition WebElement : Type := nat.

(** [selenium.webdriver.chrome.options.Options]: the arguments added, in
    order. *)
Definition Options : Type := list string.

(** Conditions handed to [WebDriverWait(...).until].  [document_ready] is
    the lambda of [safe_get]:
    [lambda d: d.execute_script("return document.readyState") == "complete"]. *)
Inductive ElementCondition : Type :=
| element_to_be_clickable (l : Locator)
| presence_of_element_located (l : Locator).

Inductive StateCondition : Type :=
| document_ready
| invisibility_of_element_located (l : Locator).

(** The steps queued on an [ActionChains] object before [perform]. *)
Inductive Action : Type :=
| move_to_element (el : WebElement)
| click_pointer.

(** ** The outside world *)

(** One call into the outside world, as recorded in the world's log. *)
Inductive Call : Type :=
| CMkdir (p : Path)
| CGetcwd
| CChrome (opts : Options)
| CSetScriptTimeout (d : Driver) (seconds : Z)
| CGet (d : Driver) (url : string)
| CUntil (d : Driver) (timeout : Z) (c : StateCondition)
| CUntilElement (d : Driver) (timeout : Z) (c : ElementCondition)
| CExecuteScript (d : Driver) (script : string) (args : list WebElement)
| CPerform (d : Driver) (chain : list Action)
| CClick (el : WebElement)
| CClear (el : WebElement)
| CSendKeys (el : WebElement) (text : string)
| CFindElements (d : Driver) (l : Locator)
| CTitle (d : Driver)
| CQuit (d : Driver)
| CSleep (ms : Z).

(** What the host answers to a call: a value or an exception, its next
    state, and the time the call took. *)
Record Reply (E A : Type) : Type := mkReply {
  reply_out : res A;
  reply_next : E;
  reply_ms : N
}.
Arguments mkReply {E A} _ _ _.
Arguments reply_out {E A} _.
Arguments reply_next {E A} _.
Arguments reply_ms {E A} _.

(** The library and operating-system surface the script uses.  Nothing is
    assumed about the answers.  The one law is on the clock: readings
    follow the time to within rounding. *)
Class Host (E : Type) : Type := {
  (* Path(__file__).resolve().parent *)
  host_program_dir : E -> Path;
  (* os.getenv(name) *)
  host_getenv : string -> E -> option string;
  (* os.getcwd() *)
  host_getcwd : E -> Reply E string;
  (* p.mkdir(parents=True, exist_ok=True) *)
  host_mkdir : Path -> E -> Reply E unit;
  (* webdriver.Chrome(options=opts) *)
  wd_chrome : Options -> E -> Reply E Driver;
  wd_set_script_timeout : Driver -> Z -> E -> Reply E unit;
  wd_get : Driver -> string -> E -> Reply E unit;
  (* WebDriverWait(driver, timeout).until(condition): Selenium's polling
     loop, answered as a whole *)
  wd_until : Driver -> Z -> StateCondition -> E -> Reply E unit;
  wd_until_element : Driver -> Z -> ElementCondition -> E -> Reply E WebElement;
  (* driver.execute_script(script, *args); the value is never used *)
  wd_execute_script : Driver -> string -> list WebElement -> E -> Reply E unit;
  (* ActionChains(driver). ... .perform() *)
  wd_perform : Driver -> list Action -> E -> Reply E unit;
  el_click : WebElement -> E -> Reply E unit;
  el_clear : WebElement -> E -> Reply E unit;
  el_send_keys : WebElement -> string -> E -> Reply E unit;
  wd_find_elements : Driver -> Locator -> E -> Reply E (list WebElement);
  (* driver.title *)
  wd_title : Driver -> E -> Reply E (option string);
  wd_quit : Driver -> E -> Reply E unit;
  (* the floats [time.time()] returns *)
  reading : Type;
  (* time.time() when the clock is at [c] milliseconds *)
  host_time : Z -> reading;
  (* reading + seconds *)
  reading_add : reading -> Z -> reading;
  (* reading < reading *)
  reading_lt : reading -> reading -> bool;
  (* a reading taken 123 seconds or more after another is not below
     that other plus 120 *)
  deadline_passes : forall c0 c : Z,
    reading_lt (host_time c) (reading_add (host_time c0) 120) = true ->
    (c < c0 + 123000)%Z
}.

Record World (E : Type) : Type := mkWorld {
  host : E;
  clock : Z;
  calls : list Call;
  stdout : list string;
  stderr : list string
}.
Arguments mkWorld {E} _ _ _ _ _.
Arguments host {E} _.
Arguments clock {E} _.
Arguments calls {E} _.
Arguments stdout {E} _.
Arguments stderr {E} _.

(** ** String helpers ([str.lower], [in], [str(int)]) *)

Definition ascii_lower (c : ascii) : ascii :=
  let n := nat_of_ascii c in
  if (Nat.leb 65 n && Nat.leb n 90)%bool then ascii_of_nat (n + 32) else c.

Fixpoint str_lower (s : string) : string :=
  match s with
  | EmptyString => EmptyString
  | String c s' => String (ascii_lower c) (str_lower s')
  end.

(** [needle in s] *)
Fixpoint str_contains (needle s : string) : bool :=
  (String.prefix needle s ||
   match s with
   | EmptyString => false
   | String _ s' => str_contains needle s'
   end)%bool.

Definition str_of_int (z : Z) : string := NilZero.string_of_int (Z.to_int z).

(** Truthiness of a Python [str]. *)
Definition str_truthy (s : string) : bool :=
  match s with EmptyString => false | _ => true end.

(** ** The monad *)

Definition M (E A : Type) : Type := World E -> res A * World E.

(** A statement block of a function returning [R]: [None] when control
    falls off its end, [Some r] when it executed [return r]. *)
Definition Block (E R : Type) : Type := M E (option R).

Section Monad.
Context {E : Type}.

Definition ret {A} (a : A) : M E A := fun w => (Ok a, w).

Definition raise {A} (e : exn) : M E A := fun w => (Raise e, w).

Definition bind {A B} (m : M E A) (k : A -> M E B) : M E B :=
  fun w =>
    match m w with
    | (Ok a, w') => k a w'
    | (Raise e, w') => (Raise e, w')
    end.

(** [return r] *)
Definition return_ {R} (r : R) : Block E R := ret (Some r).

(** [pass], and the end of a block *)
Definition pass {R} : Block E R := ret None.

(** A compound statement followed by the rest of the block. *)
Definition seq {R} (s rest : Block E R) : Block E R :=
  bind s (fun o => match o with
                   | Some r => ret (Some r)
                   | None => rest
                   end).

(** [try: body / except Exception as e: handler e].  Effects of [body]
    up to the raise are kept. *)
Definition try_except {A} (body : M E A) (handler : exn -> M E A) : M E A :=
  fun w =>
    match body w with
    | (Ok a, w') => (Ok a, w')
    | (Raise e, w') => handler e w'
    end.

(** [try: x = m / except Exception as e: handler e], followed by the
    rest of the block, which uses [x] and is not covered by the
    handler.  The handler ends the block (in the script it returns). *)
Definition try_bind {A R} (m : M E A) (handler : exn -> Block E R)
           (rest : A -> Block E R) : Block E R :=
  fun w =>
    match m w with
    | (Ok a, w') => rest a w'
    | (Raise e, w') => handler e w'
    end.

(** [try: body / finally: fin].  [fin] runs whatever [body] did; a
    raise in [fin] replaces [body]'s outcome. *)
Definition try_finally {A} (body : M E A) (fin : M E unit) : M E A :=
  fun w =>
    let (r, w') := body w in
    match fin w' with
    | (Ok _, w'') => (r, w'')
    | (Raise e, w'') => (Raise e, w'')
    end.

(** A function body; falling off the end returns [None], given here at
    the function's result type. *)
Definition def_ {R} (none : R) (body : Block E R) : M E R :=
  bind body (fun o => ret (match o with Some r => r | None => none end)).

(** [while cond: body], where [body] answers [true] when it ended in
    [break].  [fuel] bounds the number of iterations. *)
Fixpoint while_ (fuel : nat) (cond : M E bool) (body : M E bool) : M E unit :=
  match fuel with
  | O => ret tt
  | S n =>
      bind cond (fun c =>
        if c then bind body (fun broke => if broke then ret tt else while_ n cond body)
        else ret tt)
  end.

(** The world once [line] has been written to standard output. *)
Definition printed (line : string) (w : World E) : World E :=
  mkWorld (host w) (clock w) (calls w) (stdout w ++ [line]) (stderr w).

(** [print(line, flush=True)] *)
Definition print (line : string) : M E unit := fun w => (Ok tt, printed line w).

(** [print(line, file=sys.stderr)] *)
Definition eprint (line : string) : M E unit :=
  fun w =>
    (Ok tt, mkWorld (host w) (clock w) (calls w) (stdout w) (stderr w ++ [line])).

(** The world once [line] has been written to standard error. *)
Definition eprinted (line : string) (w : World E) : World E :=
  mkWorld (host w) (clock w) (calls w) (stdout w) (stderr w ++ [line]).

(** The world after sleeping [ms] milliseconds. *)
Definition slept (ms : Z) (w : World E) : World E :=
  mkWorld (host w) (clock w + ms) (calls w ++ [CSleep ms]) (stdout w) (stderr w).

(** [time.sleep(ms / 1000)] *)
Definition sleep (ms : Z) : M E unit := fun w => (Ok tt, slept ms w).

(** The world after the host answered the call [c] with [r]. *)
Definition answered {A} (c : Call) (r : Reply E A) (w : World E) : World E :=
  mkWorld (reply_next r) (clock w + Z.of_N (reply_ms r)) (calls w ++ [c])
          (stdout w) (stderr w).

(** A call into the host: recorded, timed, and answered by the host. *)
Definition call {A} (c : Call) (op : E -> Reply E A) : M E A :=
  fun w => let r := op (host w) in (reply_out r, answered c r w).

(** Reading host attributes that cannot fail. *)
Definition ask {A} (f : E -> A) : M E A := fun w => (Ok (f (host w)), w).
End Monad.

Declare Scope py_scope.
Delimit Scope py_scope with py.
Notation "x <- m ;; k" := (bind m (fun x => k))
  (at level 61, m at next level, right associativity) : py_scope.
Notation "m ;; k" := (bind m (fun _ => k))
  (at level 61, right associativity) : py_scope.
Notation "s >>> k" := (seq s k)
  (at level 61, right associativity) : py_scope.
Local Open Scope py_scope.

(** ** The script *)

(** The parsed command line ([build_arg_parser().parse_args()]). *)
Record Args : Type := mkArgs {
  prompt : string;
  headless : bool;
  session_dir : option string
}.

(** How the process ends: [sys.exit(code)], or an exception nobody
    caught. *)
Inductive Termination : Type :=
| Exit (code : Z)
| Uncaught (e : exn).

Section Script.
Context {E : Type} {H : Host E}.

(** *** Library calls, as the script spells them *)

Definition driver_get (driver : Driver) (url : string) : M E unit :=
  call (CGet driver url) (wd_get driver url).

Definition until (driver : Driver) (timeout : Z) (c : StateCondition) : M E unit :=
  call (CUntil driver timeout c) (wd_until driver timeout c).

Definition until_element (driver : Driver) (timeout : Z) (c : ElementCondition)
  : M E WebElement :=
  call (CUntilElement driver timeout c) (wd_until_element driver timeout c).

Definition execute_script (driver : Driver) (script : string) (args : list WebElement)
  : M E unit :=
  call (CExecuteScript driver script args) (wd_execute_script driver script args).

Definition perform (driver : Driver) (chain : list Action) : M E unit :=
  call (CPerform driver chain) (wd_perform driver chain).

Definition click (el : WebElement) : M E unit := call (CClick el) (el_click el).

Definition clear (el : WebElement) : M E unit := call (CClear el) (el_clear el).

Definition send_keys (el : WebElement) (text : string) : M E unit :=
  call (CSendKeys el text) (el_send_keys el text).

Definition find_elements (driver : Driver) (l : Locator) : M E (list WebElement) :=
  call (CFindElements driver l) (wd_find_elements driver l).

Definition driver_title (driver : Driver) : M E (option string) :=
  call (CTitle driver) (wd_title driver).

Definition driver_quit (driver : Driver) : M E unit :=
  call (CQuit driver) (wd_quit driver).

(** [time.time()] *)
Definition time_time : M E reading := fun w => (Ok (host_time (clock w)), w).

(** [float(timeout)] raises [OverflowError] on an integer that rounds
    past the largest double. *)
Definition float_overflows (timeout : Z) : bool :=
  2 ^ 1024 - 2 ^ 970 <=? Z.abs timeout.

Definition overflow_error : exn :=
  OtherException "int too large to convert to float".

(** [WebDriverWait(driver, timeout)]: the constructor converts the
    timeout with [float].  For the literal timeouts 10 and 60 of the
    script it cannot fail and is left out. *)
Definition new_wait (timeout : Z) : M E unit :=
  if float_overflows timeout then raise overflow_error else ret tt.

(** *** sora_runner.py *)

Definition ensure_dir (p : Path) : M E unit :=
  call (CMkdir p) (host_mkdir p).

Definition build_chrome_options (session_dir : Path) (headless : bool) : Options :=
  [ ("--user-data-dir=" ++ path_str session_dir)%string;
    "--profile-directory=Default";
    "--no-sandbox";
    "--disable-dev-shm-usage";
    "--disable-features=VizDisplayCompositor";
    "--disable-web-security" ]
  ++ (if headless then ["--headless=new"] else []).

Definition create_driver (headless : bool) (session_dir : option Path) : M E Driver :=
  dir <- match session_dir with
         | Some p => ret p
         | None => cwd <- call CGetcwd host_getcwd ;;
                   ret (PathJoin (PathOf cwd) ".chrome-session")
         end ;;
  let opts := build_chrome_options dir headless in
  driver <- call (CChrome opts) (wd_chrome opts) ;;
  call (CSetScriptTimeout driver 20) (wd_set_script_timeout driver 20) ;;
  ret driver.

Definition safe_get (driver : Driver) (url : string) : M E bool :=
  def_ false (
    try_except (
      driver_get driver url ;;
      until driver 10 document_ready ;;
      return_ true)
    (fun _ => return_ false)).

Definition scroll_script : string :=
  "arguments[0].scrollIntoView({behavior:'smooth',block:'center'});".

Definition click_script : string := "arguments[0].click();".

Definition dispatch_script : string :=
  "var e=new MouseEvent('click',{bubbles:true,cancelable:true,view:window}); arguments[0].dispatchEvent(e);".

Definition click_button_robustly (driver : Driver) (button : WebElement) : M E bool :=
  def_ false (
    try_except (
      execute_script driver scroll_script [button] ;;
      sleep 300 ;;
      try_except (
        perform driver [move_to_element button] ;;
        sleep 200 ;;
        pass)
      (fun _ => pass) >>>
      try_except (
        click button ;;
        return_ true)
      (fun e => match e with
                | ElementClickInterceptedException _ => pass
                | _ => pass
                end) >>>
      try_except (
        perform driver [move_to_element button; click_pointer] ;;
        return_ true)
      (fun _ => pass) >>>
      try_except (
        execute_script driver click_script [button] ;;
        return_ true)
      (fun _ => pass) >>>
      try_except (
        execute_script driver dispatch_script [button] ;;
        return_ true)
      (fun _ => return_ false))
    (fun _ => return_ false)).

(** The world after the guarded hover of [click_button_robustly], begun
    in [v]: the 0.2 second delay is slept only when the hover did not
    raise. *)
Definition hovered (driver : Driver) (button : WebElement) (v : World E) : World E :=
  match perform driver [move_to_element button] v with
  | (Ok _, v') => slept 200 v'
  | (Raise _, v') => v'
  end.

Definition base : string := "https://sora.chatgpt.com/".

(** A bound on the iterations of the loop of [ensure_auth] below, which
    sleeps 3 seconds in each: after 41 of them 123 seconds have passed.
    The bound never cuts the loop short ([poll_loop_fuel]); what ends
    the loop is its test. *)
Definition poll_rounds : nat := 41.

(** The loop test and the loop body of [ensure_auth]; the body answers
    [true] on [break]. *)
Definition before (deadline : reading) : M E bool :=
  t <- time_time ;; ret (reading_lt t deadline).

Definition poll_title (driver : Driver) : M E bool :=
  sleep 3000 ;;
  title <- driver_title driver ;;
  ret (str_contains "ChatGPT" (match title with Some s => s | None => "" end)).

Definition ensure_auth (driver : Driver) : M E unit :=
  def_ tt (
    safe_get driver base ;;
    sleep 2000 ;;
    imgs <- find_elements driver (TAG_NAME, "img") ;;
    (match imgs with
     | _ :: _ => return_ tt
     | [] => pass
     end) >>>
    safe_get driver "https://chat.openai.com/" ;;
    now <- time_time ;;
    let deadline := reading_add now 120 in
    while_ poll_rounds (before deadline) (poll_title driver) ;;
    safe_get driver base ;;
    sleep 2000 ;;
    pass).

(** The loop [while time.time() < deadline: ...] of [ensure_auth] as
    Python runs it, without a bound: from [w] it makes [k] rounds and
    ends with [r] in [w'].  A round is begun only on a reading below the
    deadline; the loop ends on a reading that is not, on [break], or on
    an exception. *)
Inductive polls (driver : Driver) (deadline : reading)
  : World E -> nat -> res unit -> World E -> Prop :=
| polls_deadline (w : World E) :
    reading_lt (host_time (clock w)) deadline = false ->
    polls driver deadline w 0 (Ok tt) w
| polls_break (w w' : World E) :
    reading_lt (host_time (clock w)) deadline = true ->
    poll_title driver w = (Ok true, w') ->
    polls driver deadline w 1 (Ok tt) w'
| polls_raise (w w' : World E) (e : exn) :
    reading_lt (host_time (clock w)) deadline = true ->
    poll_title driver w = (Raise e, w') ->
    polls driver deadline w 1 (Raise e) w'
| polls_again (w w' w'' : World E) (k : nat) (r : res unit) :
    reading_lt (host_time (clock w)) deadline = true ->
    poll_title driver w = (Ok false, w') ->
    polls driver deadline w' k r w'' ->
    polls driver deadline w (S k) r w''.

Definition textarea_locator : Locator :=
  (CSS_SELECTOR, "div.relative textarea[placeholder='Describe your video...']").

Definition type_prompt (driver : Driver) (prompt : string) (timeout : Z) : M E bool :=
  def_ false (
    try_except (
      new_wait timeout ;;
      textarea <- until_element driver timeout (element_to_be_clickable textarea_locator) ;;
      clear textarea ;;
      send_keys textarea prompt ;;
      return_ true)
    (fun e => match e with
              | TimeoutException _ =>
                  eprint "Textarea not found" ;;
                  return_ false
              | _ =>
                  eprint ("Failed to type prompt: " ++ exn_str e)%string ;;
                  return_ false
              end)).

Definition create_locator : Locator :=
  (XPATH, "//button[.//span[text()='Create video']]").

Definition click_create (driver : Driver) (timeout : Z) : M E bool :=
  def_ false (
    try_except (
      new_wait timeout ;;
      button <- until_element driver timeout (element_to_be_clickable create_locator) ;;
      r <- click_button_robustly driver button ;;
      return_ r)
    (fun e => match e with
              | TimeoutException _ =>
                  eprint "Create video button not found" ;;
                  return_ false
              | _ =>
                  eprint ("Failed to click create: " ++ exn_str e)%string ;;
                  return_ false
              end)).

Definition spinner_locator (index : Z) : Locator :=
  (CSS_SELECTOR, ("[data-index='" ++ str_of_int index ++ "'] svg.h-8.w-8")%string).

Definition wait_generation_complete (driver : Driver) (index : Z) (timeout : Z)
  : M E bool :=
  let selector := spinner_locator index in
  def_ false (
    new_wait timeout ;;
    try_except (
      try_except (
        until_element driver 60 (presence_of_element_located selector) ;;
        pass)
      (fun e => match e with
                | TimeoutException _ => pass
                | _ => raise e
                end) >>>
      until driver timeout (invisibility_of_element_located selector) ;;
      return_ true)
    (fun e => match e with
              | TimeoutException _ =>
                  eprint "Generation did not finish within timeout" ;;
                  return_ false
              | _ =>
                  eprint ("Error waiting for generation: " ++ exn_str e)%string ;;
                  return_ false
              end)).

(** [Path(args.session_dir or (base_dir / ".chrome-session"))] *)
Definition main_session_dir (args : Args) (base_dir : Path) : Path :=
  match session_dir args with
  | Some s => if str_truthy s then PathOf s else PathJoin base_dir ".chrome-session"
  | None => PathJoin base_dir ".chrome-session"
  end.

(** [os.getenv("SELENIUM_HEADLESS", "false").lower() == "true"] *)
Definition selenium_headless (e : E) : bool :=
  String.eqb
    (str_lower (match host_getenv "SELENIUM_HEADLESS" e with
                | Some s => s
                | None => "false"
                end))
    "true".

Definition headless_env : M E bool := ask selenium_headless.

(** The [finally] block of [main]. *)
Definition cleanup (driver : Driver) : M E unit :=
  try_except (driver_quit driver) (fun _ => ret tt).

(** The [try] block of [main]. *)
Definition workflow (args : Args) (driver : Driver) : Block E Z :=
  ensure_auth driver ;;
  ok <- type_prompt driver (prompt args) 20 ;;
  (if negb ok then return_ 2 else pass) >>>
  ok <- click_create driver 20 ;;
  (if negb ok then return_ 3 else pass) >>>
  print "WAITING" ;;
  ok <- wait_generation_complete driver 0 600 ;;
  (if negb ok then return_ 4 else pass) >>>
  print "DONE" ;;
  return_ 0.

(** [main]; a result [None] would make [sys.exit] end the process with
    status 0, hence the [0] given to [def_]. *)
Definition main (args : Args) : M E Z :=
  def_ 0 (
    base_dir <- ask host_program_dir ;;
    let session_dir := main_session_dir args base_dir in
    ensure_dir session_dir ;;
    env <- headless_env ;;
    let headless := (headless args || env)%bool in
    try_bind (create_driver headless (Some session_dir))
      (fun e =>
         eprint ("Failed to start Chrome: " ++ exn_str e)%string ;;
         return_ 1)
      (fun driver =>
         try_finally (workflow args driver) (cleanup driver))).

(** [sys.exit(main())] *)
Definition script (args : Args) (w : World E) : Termination * World E :=
  match main args w with
  | (Ok code, w') => (Exit code, w')
  | (Raise e, w') => (Uncaught e, w')
  end.

(** How the process ends when the [try] block of [main] ends with [r]. *)
Definition ending (r : res (option Z)) : Termination :=
  match r with
  | Ok (Some code) => Exit code
  | Ok None => Exit 0
  | Raise e => Uncaught e
  end.

(** *** Stages of a run, for stating what [main] does after them *)

(** The run from [w] gets its profile directory made and its browser
    session [d] created, and is in [w1] when [create_driver] returns. *)
Definition launched (args : Args) (w : World E) (d : Driver) (w1 : World E) : Prop :=
  let dir := main_session_dir args (host_program_dir (host w)) in
  exists w0,
    ensure_dir dir w = (Ok tt, w0) /\
    create_driver (headless args || selenium_headless (host w0)) (Some dir) w0
      = (Ok d, w1).

End Script.

(** ** A scripted host

    A fake browser in the manner of a mock session: it raises on the
    calls a [Scenario] lists, answers the others with fixed data, and
    counts how often the title was read.  Its clock shows the time
    exactly, in milliseconds. *)

Record Scenario : Type := mkScenario {
  (* the calls that raise, with what they raise *)
  faults : Call -> option exn;
  (* the next call of [CChrome] hands out this session *)
  session : Driver;
  (* the elements [find_elements] reports *)
  images : list WebElement;
  (* the title once it has been read so many times before *)
  titles : nat -> option string;
  (* milliseconds every call takes *)
  latency : N;
  program_dir : Path;
  environment : string -> option string
}.

Definition answer {A : Type} (sc : Scenario) (c : Call) (a : A) (reads : nat)
  : Reply nat A :=
  mkReply (match faults sc c with
           | Some e => Raise e
           | None => Ok a
           end) reads (latency sc).

Definition fake (sc : Scenario) : Host nat := {|
  host_program_dir := fun _ => program_dir sc;
  host_getenv := fun name _ => environment sc name;
  host_getcwd := answer sc CGetcwd "/tmp";
  host_mkdir := fun p => answer sc (CMkdir p) tt;
  wd_chrome := fun opts => answer sc (CChrome opts) (session sc);
  wd_set_script_timeout := fun d t => answer sc (CSetScriptTimeout d t) tt;
  wd_get := fun d url => answer sc (CGet d url) tt;
  wd_until := fun d t c => answer sc (CUntil d t c) tt;
  wd_until_element := fun d t c => answer sc (CUntilElement d t c) 7%nat;
  wd_execute_script := fun d s args => answer sc (CExecuteScript d s args) tt;
  wd_perform := fun d chain => answer sc (CPerform d chain) tt;
  el_click := fun el => answer sc (CClick el) tt;
  el_clear := fun el => answer sc (CClear el) tt;
  el_send_keys := fun el text => answer sc (CSendKeys el text) tt;
  wd_find_elements := fun d l => answer sc (CFindElements d l) (images sc);
  wd_title := fun d reads =>
    mkReply (match faults sc (CTitle d) with
             | Some e => Raise e
             | None => Ok (titles sc reads)
             end) (S reads) (latency sc);
  wd_quit := fun d => answer sc (CQuit d) tt;
  reading := Z;
  host_time := fun c => c;
  reading_add := fun r seconds => r + 1000 * seconds;
  reading_lt := Z.ltb;
  deadline_passes := fun c0 c below =>
    Z.lt_trans c (c0 + 1000 * 120) (c0 + 123000)
      (proj1 (Z.ltb_lt c (c0 + 1000 * 120)) below)
      (proj1 (Z.add_lt_mono_l (1000 * 120) 123000 c0) eq_refl)
|}.

(** A host on which nothing fails: the session is logged in (one image on
    the page) and every wait is met. *)
Definition sunny : Scenario :=
  mkScenario (fun _ => None) 1%nat [3%nat] (fun _ => Some "Sora") 5
             (PathOf "/opt/runner") (fun _ => None).

Definition with_faults (f : Call -> option exn) (sc : Scenario) : Scenario :=
  mkScenario f (session sc) (images sc) (titles sc) (latency sc)
             (program_dir sc) (environment sc).

Definition fresh : World nat := mkWorld 0%nat 0 [] [] [].

Definition cli : Args := mkArgs "a red kite over the sea" false None.

(** The prompt box never becomes clickable. *)
Definition no_textarea : Scenario :=
  with_faults
    (fun c => match c with
              | CUntilElement _ _ (element_to_be_clickable (CSS_SELECTOR, _)) =>
                  Some (TimeoutException "no such element")
              | _ => None
              end) sunny.

(** The "Create video" button never becomes clickable. *)
Definition no_button : Scenario :=
  with_faults
    (fun c => match c with
              | CUntilElement _ _ (element_to_be_clickable (XPATH, _)) =>
                  Some (TimeoutException "no such element")
              | _ => None
              end) sunny.

(** The spinner never goes away. *)
Definition endless_spinner : Scenario :=
  with_faults
    (fun c => match c with
              | CUntil _ _ (invisibility_of_element_located _) =>
                  Some (TimeoutException "still visible")
              | _ => None
              end) sunny.

(** The browser dies right after the first page load: looking for images
    raises, and so does quitting. *)
Definition crashed_tab : Scenario :=
  with_faults
    (fun c => match c with
              | CFindElements _ _ => Some (OtherException "invalid session id")
              | CQuit _ => Some (OtherException "invalid session id")
              | _ => None
              end) sunny.

(** The page intercepts pointer clicks on its button: the native click
    and the pointer click of an action chain both raise. *)
Definition intercepted : Scenario :=
  with_faults
    (fun c => match c with
              | CClick _ => Some (ElementClickInterceptedException "obscured")
              | CPerform _ [_; click_pointer] =>
                  Some (OtherException "move target out of bounds")
              | _ => None
              end) sunny.

(** As [intercepted], on a page whose scripting engine also rejects the
    scroll-into-view script, while it runs the click script. *)
Definition unscrollable : Scenario :=
  with_faults
    (fun c => match c with
              | CClick _ => Some (ElementClickInterceptedException "obscured")
              | CPerform _ [_; click_pointer] =>
                  Some (OtherException "move target out of bounds")
              | CExecuteScript _ s _ =>
                  if String.eqb s scroll_script
                  then Some (OtherException "javascript error")
                  else None
              | _ => None
              end) sunny.

(** The browser calls of robust click, in the order the attempts are
    listed: scroll into view, hover, native click, pointer click, scripted
    click, synthetic event. *)
Definition fallback_chain (d : Driver) (button : WebElement) : list Call :=
  [ CExecuteScript d scroll_script [button];
    CPerform d [move_to_element button];
    CClick button;
    CPerform d [move_to_element button; click_pointer];
    CExecuteScript d click_script [button];
    CExecuteScript d dispatch_script [button] ].

Definition is_browser_call (c : Call) : bool :=
  match c with
  | CSleep _ => false
  | _ => true
  end.

(** One round of the login poll: sleep three seconds, read the title. *)
Definition poll_round (d : Driver) : list Call := [CSleep 3000; CTitle d].

(** The title read that led to [w] showed the login signal. *)
Definition signalled {E : Type} {H : Host E} (d : Driver) (w : World E) : Prop :=
  exists w0 s, driver_title d w0 = (Ok (Some s), w) /\
               str_contains "ChatGPT" s = true.

(** The first visit of [ensure_auth]: load the application, wait two
    seconds, look for images. *)
Definition first_visit {E : Type} {H : Host E} (d : Driver)
  : M E (list WebElement) :=
  safe_get d base ;;
  sleep 2000 ;;
  find_elements d (TAG_NAME, "img").

(** Nobody is logged in, and the identity provider shows its own title
    once the title has been read twice. *)
Definition logged_out : Scenario :=
  mkScenario (fun _ => None) 1%nat []
             (fun reads => if Nat.leb 2 reads then Some "ChatGPT" else Some "Log in")
             5 (PathOf "/opt/runner") (fun _ => None).

(** Nobody ever logs in. *)
Definition never_logs_in : Scenario :=
  mkScenario (fun _ => None) 1%nat [] (fun _ => Some "Log in") 5
             (PathOf "/opt/runner") (fun _ => None).

(** Chrome starts, but the session dies before its script timeout is
    set. *)
Definition dies_at_birth : Scenario :=
  with_faults
    (fun c => match c with
              | CSetScriptTimeout _ _ => Some (OtherException "chrome not reachable")
              | _ => None
              end) sunny.

Definition is_title (c : Call) : bool :=
  match c with
  | CTitle _ => true
  | _ => false
  end.

(** Chrome cannot be started at all. *)
Definition no_chrome : Scenario :=
  with_faults
    (fun c => match c with
              | CChrome _ => Some (OtherException "chromedriver not found")
              | _ => None
              end) sunny.

(** The profile directory cannot be created. *)
Definition read_only_disk : Scenario :=
  with_faults
    (fun c => match c with
              | CMkdir _ => Some (OtherException "Permission denied")
              | _ => None
              end) sunny.

(** No page can be loaded, nobody is logged in, and the browser reports
    no title. *)
Definition offline : Scenario :=
  mkScenario
    (fun c => match c with
              | CGet _ _ => Some (OtherException "net::ERR_INTERNET_DISCONNECTED")
              | _ => None
              end)
    1%nat [] (fun _ => None) 5 (PathOf "/opt/runner") (fun _ => None).

(** The environment asks for headless mode, in capitals. *)
Definition headless_by_env : Scenario :=
  mkScenario (fun _ => None) 1%nat [3%nat] (fun _ => Some "Sora") 5
             (PathOf "/opt/runner")
             (fun name => if String.eqb name "SELENIUM_HEADLESS"
                          then Some "TRUE" else None).

(** A command line that names its own profile directory, loosely
    typed. *)
Definition cli_profile : Args :=
  mkArgs "a red kite over the sea" false (Some "/data//profile/").

(** The line [type_prompt] writes to standard error for the exception
    that stopped it. *)
Definition type_prompt_complaint (e : exn) : string :=
  match e with
  | TimeoutException _ => "Textarea not found"
  | _ => ("Failed to type prompt: " ++ exn_str e)%string
  end.

(** The same for [click_create] and for [wait_generation_complete]. *)
Definition click_create_complaint (e : exn) : string :=
  match e with
  | TimeoutException _ => "Create video button not found"
  | _ => ("Failed to click create: " ++ exn_str e)%string
  end.

Definition wait_generation_complaint (e : exn) : string :=
  match e with
  | TimeoutException _ => "Generation did not finish within timeout"
  | _ => ("Error waiting for generation: " ++ exn_str e)%string
  end.

(** ** What a computation does to the world

    [respects R m]: every run of [m], whatever it returns or raises,
    takes a world to one related to it by [R].  Two relations are used:
    [keeps f], the observation [f] is unchanged, and [grows], the record
    of calls was only added to. *)

Definition is_quit (c : Call) : bool :=
  match c with
  | CQuit _ => true
  | _ => false
  end.

(** The quit calls made so far, oldest first. *)
Definition quit_calls {E : Type} (w : World E) : list Call :=
  filter is_quit (calls w).

Definition respects {E A : Type} (R : World E -> World E -> Prop) (m : M E A)
  : Prop :=
  forall w r w', m w = (r, w') -> R w w'.

Definition keeps {E X : Type} (f : World E -> X) : World E -> World E -> Prop :=
  fun w w' => f w' = f w.

Definition grows {E : Type} : World E -> World E -> Prop :=
  fun w w' => exists l, calls w' = calls w ++ l.

(** [m] always returns a value: no exception leaves it. *)
Definition never_raises {E A : Type} (m : M E A) : Prop :=
  forall w, exists a w', m w = (Ok a, w').

Create HintDb frame.

Lemma keeps_preorder {E X : Type} (f : World E -> X) : PreOrder (keeps f).
Proof.
  split.
  - intros w. reflexivity.
  - intros w1 w2 w3 H12 H23. unfold keeps in *. congruence.
Qed.

Lemma grows_preorder {E : Type} : PreOrder (@grows E).
Proof.
  split.
  - intros w. exists []. symmetry. apply app_nil_r.
  - intros w1 w2 w3 [l12 H12] [l23 H23]. exists (l12 ++ l23).
    rewrite H23, H12. symmetry. apply app_assoc.
Qed.

Section Frames.
Context {E : Type} {H : Host E}.
Context (R : World E -> World E -> Prop) (R_pre : PreOrder R).

Lemma respects_ret {A} (a : A) : respects R (ret a).
Proof. intros w r w' Hrun. inversion Hrun; subst. reflexivity. Qed.

Lemma respects_raise {A} (e : exn) : respects R (raise (A := A) e).
Proof. intros w r w' Hrun. inversion Hrun; subst. reflexivity. Qed.

Lemma respects_time : respects R time_time.
Proof. intros w r w' Hrun. inversion Hrun; subst. reflexivity. Qed.

Lemma respects_ask {A} (g : E -> A) : respects R (ask g).
Proof. intros w r w' Hrun. inversion Hrun; subst. reflexivity. Qed.

Lemma respects_new_wait (timeout : Z) : respects R (new_wait timeout).
Proof.
  unfold new_wait. destruct (float_overflows timeout);
    [apply respects_raise | apply respects_ret].
Qed.

Lemma respects_bind {A B} (m : M E A) (k : A -> M E B) :
  respects R m -> (forall a, respects R (k a)) -> respects R (bind m k).
Proof.
  intros Hm Hk w r w' Hrun. unfold bind in Hrun.
  destruct (m w) as [[a | e] w1] eqn:Em.
  - transitivity w1; [exact (Hm _ _ _ Em) | exact (Hk a _ _ _ Hrun)].
  - inversion Hrun; subst. exact (Hm _ _ _ Em).
Qed.

Lemma respects_seq {R0} (s rest : Block E R0) :
  respects R s -> respects R rest -> respects R (seq s rest).
Proof.
  intros Hs Hrest. apply respects_bind; [exact Hs |].
  intros [r |]; [apply respects_ret | exact Hrest].
Qed.

Lemma respects_try_except {A} (body : M E A) (handler : exn -> M E A) :
  respects R body -> (forall e, respects R (handler e)) ->
  respects R (try_except body handler).
Proof.
  intros Hb Hh w r w' Hrun. unfold try_except in Hrun.
  destruct (body w) as [[a | e] w1] eqn:Eb.
  - inversion Hrun; subst. exact (Hb _ _ _ Eb).
  - transitivity w1; [exact (Hb _ _ _ Eb) | exact (Hh e _ _ _ Hrun)].
Qed.

Lemma respects_try_bind {A R0} (m : M E A) (handler : exn -> Block E R0)
      (rest : A -> Block E R0) :
  respects R m -> (forall e, respects R (handler e)) ->
  (forall a, respects R (rest a)) -> respects R (try_bind m handler rest).
Proof.
  intros Hm Hh Hk w r w' Hrun. unfold try_bind in Hrun.
  destruct (m w) as [[a | e] w1] eqn:Em.
  - transitivity w1; [exact (Hm _ _ _ Em) | exact (Hk a _ _ _ Hrun)].
  - transitivity w1; [exact (Hm _ _ _ Em) | exact (Hh e _ _ _ Hrun)].
Qed.

Lemma respects_try_finally {A} (body : M E A) (fin : M E unit) :
  respects R body -> respects R fin -> respects R (try_finally body fin).
Proof.
  intros Hb Hf w r w' Hrun. unfold try_finally in Hrun.
  destruct (body w) as [rb w1] eqn:Eb.
  destruct (fin w1) as [[u | e] w2] eqn:Ef; inversion Hrun; subst;
    (transitivity w1; [exact (Hb _ _ _ Eb) | exact (Hf _ _ _ Ef)]).
Qed.

Lemma respects_def {R0} (none : R0) (body : Block E R0) :
  respects R body -> respects R (def_ none body).
Proof. intros Hb. apply respects_bind; [exact Hb | intros; apply respects_ret]. Qed.

Lemma respects_while (cond body : M E bool) (fuel : nat) :
  respects R cond -> respects R body -> respects R (while_ fuel cond body).
Proof.
  intros Hc Hb. induction fuel as [| n IH]; simpl.
  - apply respects_ret.
  - apply respects_bind; [exact Hc |].
    intros [|]; [| apply respects_ret].
    apply respects_bind; [exact Hb |].
    intros [|]; [apply respects_ret | exact IH].
Qed.
End Frames.

#[export] Hint Resolve keeps_preorder grows_preorder
  respects_ret respects_raise respects_time respects_ask respects_new_wait
  respects_seq respects_try_finally respects_def respects_while : frame.

Section Observations.
Context {E : Type}.

Lemma call_stdout {A} (c : Call) (op : E -> Reply E A) :
  respects (keeps stdout) (call c op).
Proof. intros w r w' Hrun. inversion Hrun. reflexivity. Qed.

Lemma sleep_stdout (ms : Z) : respects (E := E) (keeps stdout) (sleep ms).
Proof. intros w r w' Hrun. inversion Hrun. reflexivity. Qed.

Lemma eprint_stdout (line : string) : respects (E := E) (keeps stdout) (eprint line).
Proof. intros w r w' Hrun. inversion Hrun. reflexivity. Qed.

Lemma filter_snoc_out {T} (p : T -> bool) (l : list T) (x : T) :
  p x = false -> filter p (l ++ [x]) = filter p l.
Proof. intros Hx. rewrite filter_app. simpl. rewrite Hx. apply app_nil_r. Qed.

Lemma call_quits {A} (c : Call) (op : E -> Reply E A) :
  is_quit c = false -> respects (keeps quit_calls) (call c op).
Proof.
  intros Hc w r w' Hrun. inversion Hrun. unfold keeps, quit_calls. simpl.
  apply filter_snoc_out. exact Hc.
Qed.

Lemma sleep_quits (ms : Z) : respects (E := E) (keeps quit_calls) (sleep ms).
Proof.
  intros w r w' Hrun. inversion Hrun. unfold keeps, quit_calls. simpl.
  apply filter_snoc_out. reflexivity.
Qed.

Lemma print_quits (line : string) : respects (E := E) (keeps quit_calls) (print line).
Proof. intros w r w' Hrun. inversion Hrun. reflexivity. Qed.

Lemma eprint_quits (line : string) : respects (E := E) (keeps quit_calls) (eprint line).
Proof. intros w r w' Hrun. inversion Hrun. reflexivity. Qed.

Lemma call_grows {A} (c : Call) (op : E -> Reply E A) : respects grows (call c op).
Proof. intros w r w' Hrun. inversion Hrun. exists [c]. reflexivity. Qed.

Lemma sleep_grows (ms : Z) : respects (E := E) grows (sleep ms).
Proof. intros w r w' Hrun. inversion Hrun. exists [CSleep ms]. reflexivity. Qed.

Lemma print_grows (line : string) : respects (E := E) grows (print line).
Proof.
  intros w r w' Hrun. inversion Hrun. exists []. symmetry. apply app_nil_r.
Qed.

Lemma eprint_grows (line : string) : respects (E := E) grows (eprint line).
Proof.
  intros w r w' Hrun. inversion Hrun. exists []. symmetry. apply app_nil_r.
Qed.
End Observations.

#[export] Hint Resolve call_stdout sleep_stdout eprint_stdout
  sleep_quits print_quits eprint_quits
  call_grows sleep_grows print_grows eprint_grows : frame.
#[export] Hint Extern 1 (respects (keeps quit_calls) (call _ _)) =>
  (apply call_quits; reflexivity) : frame.

(** Walks through a computation built from the combinators above, one
    statement at a time. *)
Ltac frame :=
  repeat first
    [ solve [auto with frame]
    | apply respects_bind; [auto with frame | | intro]
    | apply respects_try_except; [auto with frame | | intro]
    | apply respects_try_bind; [auto with frame | | intro | intro]
    | match goal with
      | |- respects _ (match ?x with _ => _ end) => destruct x
      | |- respects _ (if ?b then _ else _) => destruct b
      end ].

Ltac unfold_calls :=
  unfold driver_get, until, until_element, execute_script, perform, click,
    clear, send_keys, find_elements, driver_title, driver_quit, ensure_dir,
    return_, pass in *.

(** ** Footprints of the script's functions *)

Section Footprints.
Context {E : Type} {H : Host E}.

Lemma safe_get_stdout d url : respects (keeps stdout) (safe_get d url).
Proof. unfold safe_get. unfold_calls. frame. Qed.

Lemma safe_get_quits d url : respects (keeps quit_calls) (safe_get d url).
Proof. unfold safe_get. unfold_calls. frame. Qed.

Lemma create_driver_stdout h sd : respects (keeps stdout) (create_driver h sd).
Proof. unfold create_driver. unfold_calls. frame. Qed.

Lemma create_driver_quits h sd : respects (keeps quit_calls) (create_driver h sd).
Proof. unfold create_driver. unfold_calls. frame. Qed.

Lemma click_button_robustly_stdout d b : respects (keeps stdout) (click_button_robustly d b).
Proof. unfold click_button_robustly. unfold_calls. frame. Qed.

Lemma click_button_robustly_quits d b :
  respects (keeps quit_calls) (click_button_robustly d b).
Proof. unfold click_button_robustly. unfold_calls. frame. Qed.

Hint Resolve safe_get_stdout safe_get_quits click_button_robustly_stdout
  click_button_robustly_quits : frame.

Lemma before_stdout deadline : respects (E := E) (keeps stdout) (before deadline).
Proof. unfold before. frame. Qed.

Lemma before_quits deadline : respects (E := E) (keeps quit_calls) (before deadline).
Proof. unfold before. frame. Qed.

Lemma poll_title_stdout d : respects (keeps stdout) (poll_title d).
Proof. unfold poll_title. unfold_calls. frame. Qed.

Lemma poll_title_quits d : respects (keeps quit_calls) (poll_title d).
Proof. unfold poll_title. unfold_calls. frame. Qed.

Hint Resolve before_stdout before_quits poll_title_stdout poll_title_quits : frame.

Lemma ensure_auth_stdout d : respects (keeps stdout) (ensure_auth d).
Proof. unfold ensure_auth. unfold_calls. frame. Qed.

Lemma ensure_auth_quits d : respects (keeps quit_calls) (ensure_auth d).
Proof. unfold ensure_auth. unfold_calls. frame. Qed.

Lemma type_prompt_stdout d p t : respects (keeps stdout) (type_prompt d p t).
Proof. unfold type_prompt. unfold_calls. frame. Qed.

Lemma type_prompt_quits d p t : respects (keeps quit_calls) (type_prompt d p t).
Proof. unfold type_prompt. unfold_calls. frame. Qed.

Lemma click_create_stdout d t : respects (keeps stdout) (click_create d t).
Proof. unfold click_create. unfold_calls. frame. Qed.

Lemma click_create_quits d t : respects (keeps quit_calls) (click_create d t).
Proof. unfold click_create. unfold_calls. frame. Qed.

Lemma wait_generation_complete_stdout d i t :
  respects (keeps stdout) (wait_generation_complete d i t).
Proof. unfold wait_generation_complete. unfold_calls. frame. Qed.

Lemma wait_generation_complete_quits d i t :
  respects (keeps quit_calls) (wait_generation_complete d i t).
Proof. unfold wait_generation_complete. unfold_calls. frame. Qed.

Lemma cleanup_stdout d : respects (keeps stdout) (cleanup d).
Proof. unfold cleanup. unfold_calls. frame. Qed.

Hint Resolve ensure_auth_quits type_prompt_quits click_create_quits
  wait_generation_complete_quits : frame.

(** Nothing in the [try] block of [main] quits the session. *)
Lemma workflow_quits args d : respects (keeps quit_calls) (workflow args d).
Proof. unfold workflow. unfold_calls. frame. Qed.

(** The record of calls is only ever added to. *)
Lemma safe_get_grows d url : respects grows (safe_get d url).
Proof. unfold safe_get. unfold_calls. frame. Qed.

Lemma create_driver_grows h sd : respects grows (create_driver h sd).
Proof. unfold create_driver. unfold_calls. frame. Qed.

Lemma click_button_robustly_grows d b : respects grows (click_button_robustly d b).
Proof. unfold click_button_robustly. unfold_calls. frame. Qed.

Lemma before_grows deadline : respects (E := E) grows (before deadline).
Proof. unfold before. frame. Qed.

Lemma poll_title_grows d : respects grows (poll_title d).
Proof. unfold poll_title. unfold_calls. frame. Qed.

Hint Resolve safe_get_grows click_button_robustly_grows before_grows
  poll_title_grows : frame.

Lemma ensure_auth_grows d : respects grows (ensure_auth d).
Proof. unfold ensure_auth. unfold_calls. frame. Qed.

Lemma type_prompt_grows d p t : respects grows (type_prompt d p t).
Proof. unfold type_prompt. unfold_calls. frame. Qed.

Lemma click_create_grows d t : respects grows (click_create d t).
Proof. unfold click_create. unfold_calls. frame. Qed.

Lemma wait_generation_complete_grows d i t :
  respects grows (wait_generation_complete d i t).
Proof. unfold wait_generation_complete. unfold_calls. frame. Qed.

Lemma cleanup_grows d : respects grows (cleanup d).
Proof. unfold cleanup. unfold_calls. frame. Qed.

Hint Resolve ensure_auth_grows type_prompt_grows click_create_grows
  wait_generation_complete_grows cleanup_grows : frame.

Lemma workflow_grows args d : respects grows (workflow args d).
Proof. unfold workflow. unfold_calls. frame. Qed.

(** The [finally] block calls [quit] once, on its session, and swallows
    what [quit] raises. *)
Lemma cleanup_run d (w : World E) :
  exists w', cleanup d w = (Ok tt, w') /\
             quit_calls w' = quit_calls w ++ [CQuit d] /\
             stdout w' = stdout w /\
             calls w' = calls w ++ [CQuit d].
Proof.
  unfold cleanup, try_except, driver_quit, call, ret, quit_calls. simpl.
  destruct (reply_out (wd_quit d (host w))) as [[] | e];
    (eexists; split; [reflexivity | split; [| split; reflexivity]]);
    simpl; rewrite filter_app; reflexivity.
Qed.
End Footprints.

(** ** Steps that answer a boolean and never raise *)

(** Case analysis on every answer of the host met while running. *)
Ltac by_host_answers :=
  repeat (cbv beta iota;
          match goal with
          | |- context [match reply_out ?r with _ => _ end] =>
              let e := fresh "e" in destruct (reply_out r) as [? | e]; [| try destruct e]
          end).

Section Steps.
Context {E : Type} {H : Host E}.

Lemma click_button_robustly_returns d button :
  never_raises (click_button_robustly d button).
Proof.
  intros w.
  unfold click_button_robustly, def_, try_except, seq, bind, execute_script,
    perform, click, call, sleep, return_, pass, ret.
  by_host_answers; do 2 eexists; reflexivity.
Qed.

Lemma type_prompt_returns d text timeout : never_raises (type_prompt d text timeout).
Proof.
  intros w.
  unfold type_prompt, def_, try_except, bind, new_wait, until_element, clear,
    send_keys, call, eprint, raise, return_, ret.
  destruct (float_overflows timeout);
    by_host_answers; do 2 eexists; reflexivity.
Qed.

Lemma click_create_returns d timeout : never_raises (click_create d timeout).
Proof.
  intros w.
  unfold click_create, def_, try_except, bind, new_wait, until_element, call,
    eprint, raise, return_, ret.
  destruct (float_overflows timeout); cbv beta iota.
  - do 2 eexists; reflexivity.
  - destruct (reply_out (wd_until_element d timeout _ (host w))) as [button | e].
    + match goal with
      | |- context [click_button_robustly d button ?v] =>
          destruct (click_button_robustly_returns d button v) as [b [w' Hb]];
          rewrite Hb
      end.
      do 2 eexists; reflexivity.
    + destruct e; do 2 eexists; reflexivity.
Qed.

(** [wait_generation_complete] builds its wait outside the [try]: it
    never raises for a timeout [float] can hold. *)
Lemma wait_generation_complete_returns d index timeout :
  float_overflows timeout = false ->
  never_raises (wait_generation_complete d index timeout).
Proof.
  intros Hfits w.
  unfold wait_generation_complete, def_, try_except, seq, bind, new_wait,
    until_element, until, call, eprint, raise, return_, pass, ret.
  rewrite Hfits.
  by_host_answers; do 2 eexists; reflexivity.
Qed.

(** The prompt box not becoming clickable in time makes [type_prompt]
    answer false, with its message on standard error. *)
Lemma type_prompt_timeout d text timeout (w : World E) msg :
  float_overflows timeout = false ->
  reply_out (wd_until_element d timeout (element_to_be_clickable textarea_locator)
                              (host w))
  = Raise (TimeoutException msg) ->
  exists w', type_prompt d text timeout w = (Ok false, w') /\
             stderr w' = stderr w ++ ["Textarea not found"].
Proof.
  intros Hfits Htime.
  unfold type_prompt, def_, try_except, bind, new_wait, until_element, call,
    eprint, return_, ret.
  rewrite Hfits. cbv beta iota zeta. rewrite Htime. eexists. split; reflexivity.
Qed.

(** The same for the "Create video" button and [click_create]. *)
Lemma click_create_timeout d timeout (w : World E) msg :
  float_overflows timeout = false ->
  reply_out (wd_until_element d timeout (element_to_be_clickable create_locator)
                              (host w))
  = Raise (TimeoutException msg) ->
  exists w', click_create d timeout w = (Ok false, w') /\
             stderr w' = stderr w ++ ["Create video button not found"].
Proof.
  intros Hfits Htime.
  unfold click_create, def_, try_except, bind, new_wait, until_element, call,
    eprint, return_, ret.
  rewrite Hfits. cbv beta iota zeta. rewrite Htime. eexists. split; reflexivity.
Qed.

(** The spinner still being there at the timeout makes
    [wait_generation_complete] answer false, whether or not it was seen
    to appear. *)
Lemma wait_generation_complete_timeout d index timeout (w : World E) :
  float_overflows timeout = false ->
  (forall e, exists msg,
      reply_out (wd_until d timeout
                   (invisibility_of_element_located (spinner_locator index)) e)
      = Raise (TimeoutException msg)) ->
  exists w', wait_generation_complete d index timeout w = (Ok false, w').
Proof.
  intros Hfits Htime.
  unfold wait_generation_complete, def_, try_except, seq, bind, new_wait,
    until_element, until, call, eprint, raise, return_, pass, ret.
  rewrite Hfits. cbv beta iota zeta.
  destruct (reply_out (wd_until_element d 60 _ (host w))) as [el | e];
    [| destruct e]; cbn [host answered];
    try (match goal with
         | |- context [reply_out (wd_until d timeout ?c ?v)] =>
             let Hmsg := fresh "Hmsg" in
             destruct (Htime v) as [? Hmsg]; rewrite Hmsg
         end);
    eexists; reflexivity.
Qed.
End Steps.

(** ** The top-level workflow *)

Section Main.
Context {E : Type} {H : Host E}.

Lemma launched_stdout args (w : World E) d w1 :
  launched args w d w1 -> stdout w1 = stdout w.
Proof.
  intros [w0 [Hdir Hnew]].
  rewrite (create_driver_stdout _ _ _ _ _ Hnew).
  exact (call_stdout _ _ _ _ _ Hdir).
Qed.

Lemma launched_quits args (w : World E) d w1 :
  launched args w d w1 -> quit_calls w1 = quit_calls w.
Proof.
  intros [w0 [Hdir Hnew]].
  rewrite (create_driver_quits _ _ _ _ _ Hnew).
  refine (call_quits _ _ _ _ _ _ Hdir). reflexivity.
Qed.

(** Once the session exists, [main] is its [try] block under its
    [finally] block. *)
Lemma main_launched args (w : World E) d w1 :
  launched args w d w1 ->
  main args w = def_ 0 (try_finally (workflow args d) (cleanup d)) w1.
Proof.
  intros [w0 [Hdir Hnew]].
  unfold main, def_, headless_env. unfold bind at 1 2. unfold ask at 1.
  unfold bind at 1. rewrite Hdir. unfold bind at 1, ask. unfold try_bind.
  rewrite Hnew. reflexivity.
Qed.

(** The [finally] block keeps the outcome of the [try] block and adds
    one quit call. *)
Lemma finally_cleanup {A} (body : M E A) d (w1 : World E) r w2 :
  body w1 = (r, w2) ->
  exists w', try_finally body (cleanup d) w1 = (r, w') /\
             quit_calls w' = quit_calls w2 ++ [CQuit d] /\
             stdout w' = stdout w2 /\
             calls w' = calls w2 ++ [CQuit d].
Proof.
  intros Hbody. unfold try_finally. rewrite Hbody.
  destruct (cleanup_run d w2) as [w' [Hrun [Hq [Hout Hlast]]]].
  rewrite Hrun. exists w'. auto.
Qed.

(** The whole run, read off the outcome of the [try] block. *)
Lemma script_of_workflow args (w : World E) d w1 r w2 :
  launched args w d w1 ->
  workflow args d w1 = (r, w2) ->
  exists w', script args w = (ending r, w') /\
             main args w = (match r with
                            | Ok (Some code) => Ok code
                            | Ok None => Ok 0
                            | Raise e => Raise e
                            end, w') /\
             stdout w' = stdout w2 /\
             quit_calls w' = quit_calls w ++ [CQuit d] /\
             calls w' = calls w2 ++ [CQuit d].
Proof.
  intros Hl Hwork.
  destruct (finally_cleanup _ d _ _ _ Hwork) as [w' [Hrun [Hq [Hout Hlast]]]].
  exists w'. unfold script. rewrite (main_launched _ _ _ _ Hl).
  unfold def_, bind. rewrite Hrun.
  rewrite Hq, (workflow_quits _ _ _ _ _ Hwork), (launched_quits _ _ _ _ Hl).
  destruct r as [[code |] | e]; auto 6.
Qed.

Lemma workflow_done args d (w1 w2 w3 w4 w5 : World E) :
  ensure_auth d w1 = (Ok tt, w2) ->
  type_prompt d (prompt args) 20 w2 = (Ok true, w3) ->
  click_create d 20 w3 = (Ok true, w4) ->
  wait_generation_complete d 0 600 (printed "WAITING" w4) = (Ok true, w5) ->
  workflow args d w1 = (Ok (Some 0), printed "DONE" w5).
Proof.
  intros Hauth Hprompt Hclick Hwait.
  unfold workflow, seq, bind, print. rewrite Hauth, Hprompt. simpl.
  rewrite Hclick. simpl. rewrite Hwait. reflexivity.
Qed.

Lemma workflow_no_generation args d (w1 w2 w3 w4 w5 : World E) :
  ensure_auth d w1 = (Ok tt, w2) ->
  type_prompt d (prompt args) 20 w2 = (Ok true, w3) ->
  click_create d 20 w3 = (Ok true, w4) ->
  wait_generation_complete d 0 600 (printed "WAITING" w4) = (Ok false, w5) ->
  workflow args d w1 = (Ok (Some 4), w5).
Proof.
  intros Hauth Hprompt Hclick Hwait.
  unfold workflow, seq, bind, print. rewrite Hauth, Hprompt. simpl.
  rewrite Hclick. simpl. rewrite Hwait. reflexivity.
Qed.

Lemma workflow_no_prompt args d (w1 w2 w3 : World E) :
  ensure_auth d w1 = (Ok tt, w2) ->
  type_prompt d (prompt args) 20 w2 = (Ok false, w3) ->
  workflow args d w1 = (Ok (Some 2), w3).
Proof.
  intros Hauth Hprompt.
  unfold workflow, seq, bind. rewrite Hauth, Hprompt. reflexivity.
Qed.

Lemma workflow_no_click args d (w1 w2 w3 w4 : World E) :
  ensure_auth d w1 = (Ok tt, w2) ->
  type_prompt d (prompt args) 20 w2 = (Ok true, w3) ->
  click_create d 20 w3 = (Ok false, w4) ->
  workflow args d w1 = (Ok (Some 3), w4).
Proof.
  intros Hauth Hprompt Hclick.
  unfold workflow, seq, bind. rewrite Hauth, Hprompt. simpl.
  rewrite Hclick. reflexivity.
Qed.

Lemma workflow_auth_raises args d (w1 w2 : World E) e :
  ensure_auth d w1 = (Raise e, w2) ->
  workflow args d w1 = (Raise e, w2).
Proof.
  intros Hauth. unfold workflow, bind. rewrite Hauth. reflexivity.
Qed.

(** After the launch the [try] block ends in one of four exit codes, or
    with an exception, and then one that came out of [ensure_auth]. *)
Lemma workflow_outcomes args d (w1 : World E) :
  exists r w2,
    workflow args d w1 = (r, w2) /\
    match r with
    | Ok (Some code) => code = 0 \/ code = 2 \/ code = 3 \/ code = 4
    | Ok None => False
    | Raise e => ensure_auth d w1 = (Raise e, w2)
    end.
Proof.
  unfold workflow, seq, bind, print, return_, pass, ret.
  assert (Hend : forall code v,
             code = 0 \/ code = 2 \/ code = 3 \/ code = 4 ->
             exists r w2,
               (Ok (Some code), v) = (r, w2) /\
               match r with
               | Ok (Some c) => c = 0 \/ c = 2 \/ c = 3 \/ c = 4
               | Ok None => False
               | Raise e => ensure_auth d w1 = (Raise e, w2)
               end).
  { intros code v Hcode. exists (Ok (Some code)), v. split; [reflexivity | exact Hcode]. }
  destruct (ensure_auth d w1) as [[[] | e] w2] eqn:Hauth.
  - destruct (type_prompt_returns d (prompt args) 20 w2) as [b3 [w3 Hprompt]].
    rewrite Hprompt. destruct b3; simpl; [| apply Hend; auto].
    destruct (click_create_returns d 20 w3) as [b4 [w4 Hclick]].
    rewrite Hclick. destruct b4; simpl; [| apply Hend; auto].
    destruct (wait_generation_complete_returns d 0 600 eq_refl
              (printed "WAITING" w4))
      as [b5 [w5 Hwait]].
    rewrite Hwait. destruct b5; simpl; apply Hend; auto.
  - exists (Raise e), w2. split; reflexivity.
Qed.

(** Hence the ways a launched run can end. *)
Lemma script_outcomes args (w : World E) d w1 :
  launched args w d w1 ->
  exists t w',
    script args w = (t, w') /\
    (t = Exit 0 \/ t = Exit 2 \/ t = Exit 3 \/ t = Exit 4 \/
     exists e w2, t = Uncaught e /\ ensure_auth d w1 = (Raise e, w2)).
Proof.
  intros Hl.
  destruct (workflow_outcomes args d w1) as [r [w2 [Hwork Hr]]].
  destruct (script_of_workflow _ _ _ _ _ _ Hl Hwork) as [w' [Hrun _]].
  exists (ending r), w'. split; [exact Hrun |].
  destruct r as [[code |] | e]; simpl.
  - destruct Hr as [-> | [-> | [-> | ->]]]; auto 6.
  - contradiction.
  - do 4 right. eauto.
Qed.

(** A launch that fails after Chrome itself has started (setting the
    script timeout raises) is reported like any launch failure: exit code
    1, and [main] has no session to quit. *)
Lemma main_launch_fails_late args (w w0 : World E) d e :
  let dir := main_session_dir args (host_program_dir (host w)) in
  let opts := build_chrome_options dir
                (headless args || selenium_headless (host w0)) in
  ensure_dir dir w = (Ok tt, w0) ->
  reply_out (wd_chrome opts (host w0)) = Ok d ->
  reply_out (wd_set_script_timeout d 20 (reply_next (wd_chrome opts (host w0))))
  = Raise e ->
  exists w', script args w = (Exit 1, w') /\ quit_calls w' = quit_calls w.
Proof.
  intros dir opts Hdir Hchrome Htimeout.
  assert (Hq0 : quit_calls w0 = quit_calls w).
  { refine (call_quits _ _ _ _ _ _ Hdir). reflexivity. }
  unfold script, main, def_, headless_env. unfold bind at 1 2. unfold ask at 1.
  unfold bind at 1. fold dir. rewrite Hdir. unfold bind at 1, ask.
  unfold try_bind, create_driver, bind, call, eprint, return_, ret.
  fold opts. cbv beta iota zeta. rewrite Hchrome. cbn [host answered].
  rewrite Htimeout. eexists. split; [reflexivity |].
  rewrite <- Hq0. unfold quit_calls. cbn [calls answered].
  rewrite !filter_app. simpl. rewrite !app_nil_r. reflexivity.
Qed.
End Main.

(** ** Exit codes and stdout markers *)

Section ExitCodes.
Context {E : Type} {H : Host E}.

(** C1.  When the browser launches, authentication goes through, the
    prompt is typed, the submission is clicked and the generation wait
    succeeds, the run writes to standard output exactly the two lines
    WAITING and DONE, in that order, and the process exits with code 0. *)
Theorem main_success_markers args (w : World E) d w1 w2 w3 w4 w5 :
  launched args w d w1 ->
  ensure_auth d w1 = (Ok tt, w2) ->
  type_prompt d (prompt args) 20 w2 = (Ok true, w3) ->
  click_create d 20 w3 = (Ok true, w4) ->
  wait_generation_complete d 0 600 (printed "WAITING" w4) = (Ok true, w5) ->
  exists w', script args w = (Exit 0, w') /\
             stdout w' = stdout w ++ ["WAITING"; "DONE"].
Proof.
  intros Hl Hauth Hprompt Hclick Hwait.
  pose proof (workflow_done args _ _ _ _ _ _ Hauth Hprompt Hclick Hwait) as Hwork.
  destruct (script_of_workflow _ _ _ _ _ _ Hl Hwork) as [w' [Hrun [_ [Hout _]]]].
  exists w'. split; [exact Hrun |].
  rewrite Hout. simpl.
  rewrite (wait_generation_complete_stdout _ _ _ _ _ _ Hwait). simpl.
  rewrite (click_create_stdout _ _ _ _ _ Hclick).
  rewrite (type_prompt_stdout _ _ _ _ _ _ Hprompt).
  rewrite (ensure_auth_stdout _ _ _ _ Hauth).
  rewrite (launched_stdout _ _ _ _ Hl).
  rewrite <- app_assoc. reflexivity.
Qed.

(** C2.  When the generation wait fails ([wait_generation_complete]
    returns false: the spinner did not go away within the timeout), the
    process exits with code 4; WAITING was on standard output when the
    wait began, and it is the only line written by the time of the
    exit. *)
Theorem main_generation_timeout args (w : World E) d w1 w2 w3 w4 w5 :
  launched args w d w1 ->
  ensure_auth d w1 = (Ok tt, w2) ->
  type_prompt d (prompt args) 20 w2 = (Ok true, w3) ->
  click_create d 20 w3 = (Ok true, w4) ->
  wait_generation_complete d 0 600 (printed "WAITING" w4) = (Ok false, w5) ->
  stdout (printed "WAITING" w4) = stdout w ++ ["WAITING"] /\
  exists w', script args w = (Exit 4, w') /\
             stdout w' = stdout w ++ ["WAITING"].
Proof.
  intros Hl Hauth Hprompt Hclick Hwait.
  assert (Hbefore : stdout (printed "WAITING" w4) = stdout w ++ ["WAITING"]).
  { simpl.
    rewrite (click_create_stdout _ _ _ _ _ Hclick).
    rewrite (type_prompt_stdout _ _ _ _ _ _ Hprompt).
    rewrite (ensure_auth_stdout _ _ _ _ Hauth).
    rewrite (launched_stdout _ _ _ _ Hl). reflexivity. }
  split; [exact Hbefore |].
  pose proof (workflow_no_generation args _ _ _ _ _ _ Hauth Hprompt Hclick Hwait)
    as Hwork.
  destruct (script_of_workflow _ _ _ _ _ _ Hl Hwork) as [w' [Hrun [_ [Hout _]]]].
  exists w'. split; [exact Hrun |].
  rewrite Hout, (wait_generation_complete_stdout _ _ _ _ _ _ Hwait).
  exact Hbefore.
Qed.

(** C3.  When prompt entry fails ([type_prompt] returns false: the input
    element did not become clickable within its timeout), the process
    exits with code 2 and nothing is written to standard output, so
    neither WAITING nor DONE. *)
Theorem main_prompt_failure args (w : World E) d w1 w2 w3 :
  launched args w d w1 ->
  ensure_auth d w1 = (Ok tt, w2) ->
  type_prompt d (prompt args) 20 w2 = (Ok false, w3) ->
  exists w', script args w = (Exit 2, w') /\ stdout w' = stdout w.
Proof.
  intros Hl Hauth Hprompt.
  pose proof (workflow_no_prompt args _ _ _ _ Hauth Hprompt) as Hwork.
  destruct (script_of_workflow _ _ _ _ _ _ Hl Hwork) as [w' [Hrun [_ [Hout _]]]].
  exists w'. split; [exact Hrun |].
  rewrite Hout.
  rewrite (type_prompt_stdout _ _ _ _ _ _ Hprompt).
  rewrite (ensure_auth_stdout _ _ _ _ Hauth).
  exact (launched_stdout _ _ _ _ Hl).
Qed.

(** C4.  When submission fails ([click_create] returns false: the
    submission control did not become clickable within its timeout), the
    process exits with code 3. *)
Theorem main_submit_failure args (w : World E) d w1 w2 w3 w4 :
  launched args w d w1 ->
  ensure_auth d w1 = (Ok tt, w2) ->
  type_prompt d (prompt args) 20 w2 = (Ok true, w3) ->
  click_create d 20 w3 = (Ok false, w4) ->
  exists w', script args w = (Exit 3, w').
Proof.
  intros Hl Hauth Hprompt Hclick.
  pose proof (workflow_no_click args _ _ _ _ _ Hauth Hprompt Hclick) as Hwork.
  destruct (script_of_workflow _ _ _ _ _ _ Hl Hwork) as [w' [Hrun _]].
  exists w'. exact Hrun.
Qed.

(** Once [create_driver] has handed the browser session to [main], the
    run quits it exactly once before the process ends, whatever the
    later steps return or raise: the run adds one quit call to the
    record, on that session, and it is the last call the run makes. *)
Lemma main_quits_once args (w : World E) d w1 :
  launched args w d w1 ->
  exists t w', script args w = (t, w') /\
               quit_calls w' = quit_calls w ++ [CQuit d] /\
               exists before_quit, calls w' = before_quit ++ [CQuit d].
Proof.
  intros Hl.
  destruct (workflow args d w1) as [r w2] eqn:Hwork.
  destruct (script_of_workflow _ _ _ _ _ _ Hl Hwork) as [w' [Hrun [_ [_ [Hq Hlast]]]]].
  exists (ending r), w'. eauto.
Qed.

(** C10.  An exception that leaves [ensure_auth] is not caught by
    [main]: the cleanup block still quits the session, once, and the
    process ends with that exception uncaught instead of [main] returning
    an exit code. *)
Theorem main_auth_exception_escapes args (w : World E) d w1 w2 e :
  launched args w d w1 ->
  ensure_auth d w1 = (Raise e, w2) ->
  exists w', main args w = (Raise e, w') /\
             script args w = (Uncaught e, w') /\
             quit_calls w' = quit_calls w ++ [CQuit d].
Proof.
  intros Hl Hauth.
  pose proof (workflow_auth_raises args _ _ _ _ Hauth) as Hwork.
  destruct (script_of_workflow _ _ _ _ _ _ Hl Hwork) as [w' [Hrun [Hmain [_ [Hq _]]]]].
  exists w'. auto.
Qed.
End ExitCodes.

Example main_success_markers_witness :
  exists w', script (H := fake sunny) cli fresh = (Exit 0, w') /\
             stdout w' = ["WAITING"; "DONE"].
Proof.
  eapply (main_success_markers (H := fake sunny) cli fresh).
  - eexists. split; vm_compute; reflexivity.
  - vm_compute; reflexivity.
  - vm_compute; reflexivity.
  - vm_compute; reflexivity.
  - vm_compute; reflexivity.
Defined.

Example main_generation_timeout_witness :
  exists w', script (H := fake endless_spinner) cli fresh = (Exit 4, w') /\
             stdout w' = ["WAITING"].
Proof.
  eapply proj2.
  eapply (main_generation_timeout (H := fake endless_spinner) cli fresh).
  - eexists. split; vm_compute; reflexivity.
  - vm_compute; reflexivity.
  - vm_compute; reflexivity.
  - vm_compute; reflexivity.
  - vm_compute; reflexivity.
Defined.

Example main_prompt_failure_witness :
  exists w', script (H := fake no_textarea) cli fresh = (Exit 2, w') /\
             stdout w' = [].
Proof.
  eapply (main_prompt_failure (H := fake no_textarea) cli fresh).
  - eexists. split; vm_compute; reflexivity.
  - vm_compute; reflexivity.
  - vm_compute; reflexivity.
Defined.

Example main_submit_failure_witness :
  exists w', script (H := fake no_button) cli fresh = (Exit 3, w').
Proof.
  eapply (main_submit_failure (H := fake no_button) cli fresh).
  - eexists. split; vm_compute; reflexivity.
  - vm_compute; reflexivity.
  - vm_compute; reflexivity.
  - vm_compute; reflexivity.
Defined.

Example main_quits_once_witness :
  exists t w', script (H := fake crashed_tab) cli fresh = (t, w') /\
               quit_calls w' = [CQuit 1%nat] /\
               exists before_quit, calls w' = before_quit ++ [CQuit 1%nat].
Proof.
  eapply (main_quits_once (H := fake crashed_tab) cli fresh).
  eexists. split; vm_compute; reflexivity.
Defined.

Example main_auth_exception_escapes_witness :
  exists w',
    main (H := fake crashed_tab) cli fresh
      = (Raise (OtherException "invalid session id"), w') /\
    script (H := fake crashed_tab) cli fresh
      = (Uncaught (OtherException "invalid session id"), w') /\
    quit_calls w' = [CQuit 1%nat].
Proof.
  eapply (main_auth_exception_escapes (H := fake crashed_tab) cli fresh).
  - eexists. split; vm_compute; reflexivity.
  - vm_compute; reflexivity.
Defined.

(** ** Navigation *)

Section Navigation.
Context {E : Type} {H : Host E}.

(** What one [safe_get] does, case by case on the host's answers. *)
Lemma safe_get_run d url (w : World E) :
  exists b w',
    safe_get d url w = (Ok b, w') /\
    let page := wd_get d url (host w) in
    match reply_out page with
    | Raise _ => b = false /\ calls w' = calls w ++ [CGet d url]
    | Ok _ =>
        calls w' = calls w ++ [CGet d url; CUntil d 10 document_ready] /\
        match reply_out (wd_until d 10 document_ready (reply_next page)) with
        | Ok _ => b = true
        | Raise _ => b = false
        end
    end.
Proof.
  unfold safe_get, def_, try_except, bind, driver_get, until, call, return_, ret.
  simpl.
  destruct (reply_out (wd_get d url (host w))) as [[] | e]; simpl.
  - destruct (reply_out (wd_until d 10 document_ready
                           (reply_next (wd_get d url (host w))))) as [[] | e];
      simpl; do 2 eexists; (split; [reflexivity |]); simpl;
      rewrite <- app_assoc; auto.
  - do 2 eexists. split; [reflexivity |]. auto.
Qed.

Lemma safe_get_returns d url : never_raises (safe_get d url).
Proof.
  intros w. destruct (safe_get_run d url w) as [b [w' [Hrun _]]].
  eauto.
Qed.

(** C7.  [safe_get] never raises, whatever the URL and however the
    browser fails: it asks for the page, then waits for the document to
    be ready with a timeout of 10, and answers a boolean, false as soon
    as either call raised. *)
Theorem safe_get_never_raises d url (w : World E) :
  exists b w',
    safe_get d url w = (Ok b, w') /\
    let page := wd_get d url (host w) in
    match reply_out page with
    | Raise _ => b = false /\ calls w' = calls w ++ [CGet d url]
    | Ok _ =>
        calls w' = calls w ++ [CGet d url; CUntil d 10 document_ready] /\
        match reply_out (wd_until d 10 document_ready (reply_next page)) with
        | Ok _ => b = true
        | Raise _ => b = false
        end
    end.
Proof. exact (safe_get_run d url w). Qed.
End Navigation.

(** ** Robust click *)

Section RobustClick.
Context {E : Type} {H : Host E}.

(** A scroll script that raises ends robust click at once, with false
    and no click attempted. *)
Lemma click_button_robustly_scroll_raises d button (w : World E) e :
  reply_out (wd_execute_script d scroll_script [button] (host w)) = Raise e ->
  exists w', click_button_robustly d button w = (Ok false, w') /\
             calls w' = calls w ++ [CExecuteScript d scroll_script [button]].
Proof.
  intros Hscroll.
  unfold click_button_robustly, def_, try_except, bind, execute_script, call.
  simpl. rewrite Hscroll. simpl. eexists. split; reflexivity.
Qed.

(** What one robust click does, case by case on the host's answers:
    the first click attempt that does not raise ends it, with true, in
    the world that attempt left. *)
Lemma click_button_robustly_cascade d button (w : World E) :
  match execute_script d scroll_script [button] w with
  | (Raise _, v) => click_button_robustly d button w = (Ok false, v)
  | (Ok _, v) =>
    match click button (hovered d button (slept 300 v)) with
    | (Ok _, v1) => click_button_robustly d button w = (Ok true, v1)
    | (Raise _, v1) =>
      match perform d [move_to_element button; click_pointer] v1 with
      | (Ok _, v2) => click_button_robustly d button w = (Ok true, v2)
      | (Raise _, v2) =>
        match execute_script d click_script [button] v2 with
        | (Ok _, v3) => click_button_robustly d button w = (Ok true, v3)
        | (Raise _, v3) =>
          match execute_script d dispatch_script [button] v3 with
          | (Ok _, v4) => click_button_robustly d button w = (Ok true, v4)
          | (Raise _, v4) => click_button_robustly d button w = (Ok false, v4)
          end
        end
      end
    end
  end.
Proof.
  unfold click_button_robustly, hovered, def_, try_except, seq, bind,
    execute_script, perform, click, call, sleep, return_, pass, ret.
  cbv beta iota zeta.
  destruct (reply_out (wd_execute_script d scroll_script [button] (host w)))
    as [[] | e0]; [| reflexivity].
  cbn [host answered slept].
  destruct (reply_out (wd_perform d [move_to_element button] _)) as [[] | e1];
    cbn [host answered slept];
    (destruct (reply_out (el_click button _)) as [[] | e2];
     [reflexivity | destruct e2]);
    cbn [host answered slept];
    (destruct (reply_out (wd_perform d [move_to_element button; click_pointer] _))
       as [[] | e3]; [reflexivity |]);
    cbn [host answered slept];
    (destruct (reply_out (wd_execute_script d click_script [button] _))
       as [[] | e4]; [reflexivity |]);
    cbn [host answered slept];
    (destruct (reply_out (wd_execute_script d dispatch_script [button] _))
       as [[] | e5]; reflexivity).
Qed.

(** C6, as the code has it.  For a target whose native click raises and
    whose scripted click succeeds: when the scroll-into-view script
    raises, robust click returns false in the world the scroll left, so
    without any click attempt; when it runs, robust click returns true,
    after the scroll, the hover, the native click and the pointer click,
    in the world the pointer click left if that one did not raise, and
    else in the world the scripted click left.  Nothing is done after
    the click that succeeded, and the synthetic event is never
    reached. *)
Theorem click_button_robustly_fallback d button (w : World E) :
  (forall e, exists x, reply_out (el_click button e) = Raise x) ->
  (forall e, reply_out (wd_execute_script d click_script [button] e) = Ok tt) ->
  match execute_script d scroll_script [button] w with
  | (Raise _, v) => click_button_robustly d button w = (Ok false, v)
  | (Ok _, v) =>
      let v1 := snd (click button (hovered d button (slept 300 v))) in
      match perform d [move_to_element button; click_pointer] v1 with
      | (Ok _, v2) => click_button_robustly d button w = (Ok true, v2)
      | (Raise _, v2) =>
          click_button_robustly d button w
          = (Ok true, snd (execute_script d click_script [button] v2))
      end
  end.
Proof.
  intros Hclick Hscript.
  pose proof (click_button_robustly_cascade d button w) as Hc.
  destruct (execute_script d scroll_script [button] w) as [[[] | e] v];
    [| exact Hc].
  cbv zeta.
  unfold click at 1 in Hc. unfold click at 1. unfold call in Hc |- *.
  destruct (Hclick (host (hovered d button (slept 300 v)))) as [x Hx].
  rewrite Hx in Hc. cbn [snd].
  destruct (perform d [move_to_element button; click_pointer] _)
    as [[[] | e2] v2]; [exact Hc |].
  unfold execute_script at 1 in Hc. unfold execute_script.
  unfold call in Hc |- *. cbn [snd].
  rewrite Hscript in Hc. exact Hc.
Qed.

(** On the way there: when the pointer click of the action chain raises
    as well, the scripted click is the attempt that succeeds. *)
Lemma click_button_robustly_scripted d button (w : World E) :
  reply_out (wd_execute_script d scroll_script [button] (host w)) = Ok tt ->
  (forall e, exists x, reply_out (el_click button e) = Raise x) ->
  (forall e, exists x,
      reply_out (wd_perform d [move_to_element button; click_pointer] e) = Raise x) ->
  (forall e, reply_out (wd_execute_script d click_script [button] e) = Ok tt) ->
  exists w' l,
    click_button_robustly d button w = (Ok true, w') /\
    calls w' = calls w ++ l /\
    filter is_browser_call l = firstn 5 (fallback_chain d button).
Proof.
  intros Hscroll Hclick Hchain Hscript.
  unfold click_button_robustly, def_, try_except, seq, bind, execute_script,
    perform, click, call, sleep, return_, pass, ret.
  simpl. rewrite Hscroll. simpl.
  destruct (reply_out (wd_perform d [move_to_element button] _)) as [[] | e1];
    simpl;
    match goal with
    | |- context [reply_out (el_click button ?e)] =>
        destruct (Hclick e) as [x Hx]; rewrite Hx; simpl
    end;
    (assert (Hpass : forall v : World E,
                match x with TimeoutException _ | _ => fun w0 => (Ok (@None bool), w0) end v
                = (Ok None, v)) by (intros v; destruct x; reflexivity));
    rewrite Hpass; simpl;
    match goal with
    | |- context [reply_out (wd_perform d [move_to_element button; click_pointer] ?e)] =>
        destruct (Hchain e) as [y Hy]; rewrite Hy; simpl
    end;
    rewrite Hscript; simpl;
    do 2 eexists; (split; [reflexivity |]);
    (split; [simpl; rewrite <- !app_assoc; reflexivity | reflexivity]).
Qed.
End RobustClick.

Example click_button_robustly_fallback_witness :
  click_button_robustly (H := fake intercepted) 1%nat 7%nat fresh
  = (Ok true,
     mkWorld 0%nat 525
       [ CExecuteScript 1%nat scroll_script [7%nat]; CSleep 300;
         CPerform 1%nat [move_to_element 7%nat]; CSleep 200;
         CClick 7%nat;
         CPerform 1%nat [move_to_element 7%nat; click_pointer];
         CExecuteScript 1%nat click_script [7%nat] ]
       [] []).
Proof.
  apply (click_button_robustly_fallback (H := fake intercepted) 1%nat 7%nat fresh).
  - intros e. eexists. reflexivity.
  - intros e. reflexivity.
Defined.

(** C6, as stated, fails: on this page the native click raises and the
    click script succeeds whenever it is run, yet robust click returns
    false, because the scroll-into-view script raised first. *)
Example click_button_robustly_counterexample :
  (forall e, exists x,
      reply_out (@el_click nat (fake unscrollable) 7%nat e) = Raise x) /\
  (forall e,
      reply_out (@wd_execute_script nat (fake unscrollable) 1%nat click_script [7%nat] e)
      = Ok tt) /\
  click_button_robustly (H := fake unscrollable) 1%nat 7%nat fresh
  = (Ok false,
     mkWorld 0%nat 5 [CExecuteScript 1%nat scroll_script [7%nat]] [] []).
Proof.
  split; [intros e; eexists; reflexivity |].
  split; [intros e; reflexivity |].
  vm_compute. reflexivity.
Qed.

(** ** Authentication *)

Section Authentication.
Context {E : Type} {H : Host E}.

Lemma poll_title_run d (w : World E) :
  poll_title d w =
  (match reply_out (wd_title d (host w)) with
   | Ok title =>
       Ok (str_contains "ChatGPT" (match title with Some s => s | None => "" end))
   | Raise e => Raise e
   end,
   answered (CTitle d) (wd_title d (host w)) (slept 3000 w)).
Proof.
  unfold poll_title, bind, sleep, driver_title, call, ret. simpl.
  destruct (reply_out (wd_title d (host w))); reflexivity.
Qed.

(** One round of the poll: what it records, how long it takes at
    least, and where its answer comes from. *)
Lemma poll_title_facts d (w : World E) r w1 :
  poll_title d w = (r, w1) ->
  calls w1 = calls w ++ poll_round d /\
  clock w + 3000 <= clock w1 /\
  (r = Ok true -> signalled d w1) /\
  (forall e, r = Raise e -> exists w0, driver_title d w0 = (Raise e, w1)).
Proof.
  rewrite poll_title_run. intros Hrun.
  pose proof (N2Z.is_nonneg (reply_ms (wd_title d (host w)))) as Hms.
  assert (Hw1 : w1 = answered (CTitle d) (wd_title d (host w)) (slept 3000 w))
    by (inversion Hrun; reflexivity).
  subst w1. cbn [calls clock answered slept].
  split; [rewrite <- app_assoc; reflexivity |]. split; [lia |].
  destruct (reply_out (wd_title d (host w))) as [title | e0] eqn:Htitle;
    inversion Hrun; subst; split.
  - intros Hsig. inversion Hsig as [Hs].
    destruct title as [s |]; [| discriminate].
    exists (slept 3000 w), s. split; [| exact Hs].
    unfold driver_title, call. simpl. rewrite Htitle. reflexivity.
  - intros e Habs. discriminate.
  - intros Habs. discriminate.
  - intros e He. inversion He; subst. exists (slept 3000 w).
    unfold driver_title, call. simpl. rewrite Htitle. reflexivity.
Qed.

(** The bounded loop of the model is the loop [polls] describes, as soon
    as the rounds it may still make reach 123 seconds after the reading
    the deadline was computed from. *)
Lemma poll_loop_run d c0 fuel : forall (w : World E) r w',
  c0 + 123000 <= clock w + 3000 * Z.of_nat fuel ->
  while_ fuel (before (reading_add (host_time c0) 120)) (poll_title d) w = (r, w') ->
  exists k,
    (k <= fuel)%nat /\
    polls d (reading_add (host_time c0) 120) w k r w' /\
    calls w' = calls w ++ List.concat (repeat (poll_round d) k) /\
    clock w + 3000 * Z.of_nat k <= clock w' /\
    (r = Ok tt ->
     signalled d w' \/
     reading_lt (host_time (clock w')) (reading_add (host_time c0) 120) = false) /\
    (forall e, r = Raise e -> exists w0, driver_title d w0 = (Raise e, w')).
Proof.
  induction fuel as [| n IH]; intros w r w' Hfuel Hrun.
  - inversion Hrun; subst.
    assert (Hover : reading_lt (host_time (clock w'))
                               (reading_add (host_time c0) 120) = false).
    { destruct (reading_lt _ _) eqn:Hlt; [| reflexivity].
      apply deadline_passes in Hlt. simpl in Hfuel. lia. }
    exists 0%nat. simpl. rewrite app_nil_r.
    split; [lia |]. split; [apply polls_deadline; exact Hover |].
    split; [reflexivity |]. split; [lia |]. split; [auto |].
    intros e Habs. discriminate.
  - simpl in Hrun. unfold bind at 1 in Hrun. unfold before at 1 in Hrun.
    unfold bind at 1, time_time, ret in Hrun.
    destruct (reading_lt (host_time (clock w)) (reading_add (host_time c0) 120))
      eqn:Hlt.
    + unfold bind at 1 in Hrun.
      destruct (poll_title d w) as [[broke | e] w1] eqn:Hround;
        destruct (poll_title_facts _ _ _ _ Hround) as [Hc1 [Ht1 [Hs1 Hr1]]].
      * destruct broke.
        -- inversion Hrun; subst. exists 1%nat. simpl.
           split; [lia |]. split; [apply polls_break; assumption |].
           split; [exact Hc1 |]. split; [lia |]. split; [auto |].
           intros e Habs. discriminate.
        -- assert (Hfuel1 : c0 + 123000 <= clock w1 + 3000 * Z.of_nat n) by lia.
           destruct (IH _ _ _ Hfuel1 Hrun)
             as [k [Hk [Hpoll [Hcalls [Hclock [Hend Hraise]]]]]].
           exists (S k). split; [lia |].
           split; [eapply polls_again; eassumption |].
           split.
           { rewrite Hcalls, Hc1. simpl. rewrite <- !app_assoc. reflexivity. }
           split; [lia |]. split; assumption.
      * inversion Hrun; subst. exists 1%nat. simpl.
        split; [lia |]. split; [apply polls_raise; assumption |].
        split; [exact Hc1 |]. split; [lia |]. split.
        -- intros Habs. discriminate.
        -- intros e0 He0. inversion He0; subst. apply Hr1. reflexivity.
    + inversion Hrun; subst. exists 0%nat. simpl. rewrite app_nil_r.
      split; [lia |]. split; [apply polls_deadline; exact Hlt |].
      split; [reflexivity |]. split; [lia |]. split; [auto |].
      intros e Habs. discriminate.
Qed.

(** The bound on the rounds is never what stops the loop: any bound
    that reaches 123 seconds gives the same run. *)
Lemma poll_loop_fuel d c0 : forall n m (w : World E),
  c0 + 123000 <= clock w + 3000 * Z.of_nat n ->
  c0 + 123000 <= clock w + 3000 * Z.of_nat m ->
  while_ n (before (reading_add (host_time c0) 120)) (poll_title d) w
  = while_ m (before (reading_add (host_time c0) 120)) (poll_title d) w.
Proof.
  assert (Hstop : forall k (w : World E),
             reading_lt (host_time (clock w)) (reading_add (host_time c0) 120)
             = false ->
             while_ k (before (reading_add (host_time c0) 120)) (poll_title d) w
             = (Ok tt, w)).
  { intros [| k] w Hover; [reflexivity |].
    simpl. unfold bind at 1. unfold before, bind, time_time, ret.
    rewrite Hover. reflexivity. }
  induction n as [| n IH]; intros m w Hn Hm;
    destruct (reading_lt (host_time (clock w)) (reading_add (host_time c0) 120))
      eqn:Hlt;
    try (rewrite !Hstop by exact Hlt; reflexivity).
  - apply deadline_passes in Hlt. simpl in Hn. lia.
  - destruct m as [| m].
    { apply deadline_passes in Hlt. simpl in Hm. lia. }
    simpl. unfold bind at 1 3. unfold before at 1 3.
    unfold bind at 1 3, time_time, ret. rewrite Hlt. unfold bind at 1 2.
    destruct (poll_title d w) as [[broke | e] w1] eqn:Hround; [| reflexivity].
    destruct broke; [reflexivity |].
    destruct (poll_title_facts _ _ _ _ Hround) as [_ [Ht1 _]].
    apply IH; lia.
Qed.

(** What [ensure_auth] does after its first visit, case by case. *)
Lemma ensure_auth_run d (w : World E) :
  match first_visit d w with
  | (Ok (_ :: _), w2) => ensure_auth d w = (Ok tt, w2)
  | (Ok [], w2) =>
      exists b3 w3 k (r : res unit) w4,
        safe_get d "https://chat.openai.com/" w2 = (Ok b3, w3) /\
        polls d (reading_add (host_time (clock w3)) 120) w3 k r w4 /\
        (k <= 41)%nat /\
        calls w4 = calls w3 ++ List.concat (repeat (poll_round d) k) /\
        match r with
        | Ok _ =>
            (signalled d w4 \/
             reading_lt (host_time (clock w4))
                        (reading_add (host_time (clock w3)) 120) = false) /\
            exists b5 w5,
              safe_get d base w4 = (Ok b5, w5) /\
              ensure_auth d w = (Ok tt, slept 2000 w5)
        | Raise e =>
            (exists w0, driver_title d w0 = (Raise e, w4)) /\
            ensure_auth d w = (Raise e, w4)
        end
  | (Raise e, w2) => ensure_auth d w = (Raise e, w2)
  end.
Proof.
  unfold first_visit, ensure_auth, def_, seq, return_, pass.
  unfold bind, sleep, time_time, ret.
  destruct (safe_get_run d base w) as [b [w1 [Hvisit _]]]. rewrite Hvisit.
  destruct (find_elements d (TAG_NAME, "img") (slept 2000 w1))
    as [[[| img imgs] | e] w2] eqn:Hlook; try reflexivity.
  destruct (safe_get_run d "https://chat.openai.com/" w2) as [b3 [w3 [Hidp _]]].
  cbv beta iota. rewrite Hidp. unfold poll_rounds.
  destruct (while_ 41 (before (reading_add (host_time (clock w3)) 120))
                   (poll_title d) w3) as [r w4] eqn:Hloop.
  assert (Hfuel : clock w3 + 123000 <= clock w3 + 3000 * Z.of_nat 41) by lia.
  destruct (poll_loop_run _ _ _ _ _ _ Hfuel Hloop)
    as [k [Hk [Hpoll [Hcalls [Hclock [Hend Hraise]]]]]].
  exists b3, w3, k, r, w4.
  split; [reflexivity |]. split; [exact Hpoll |]. split; [exact Hk |].
  split; [exact Hcalls |].
  destruct r as [[] | e].
  - split; [exact (Hend eq_refl) |].
    destruct (safe_get_run d base w4) as [b5 [w5 [Hback _]]].
    exists b5, w5. rewrite Hback. auto.
  - split; [exact (Hraise e eq_refl) | reflexivity].
Qed.

(** C8.  [ensure_auth] returns at once, with nothing done after the
    lookup, when the first visit finds at least one image.  When it finds
    none, it loads the identity provider and polls as the loop
    [while time.time() < deadline] does, with the deadline 120 seconds
    above the reading taken when the poll begins: each round sleeps 3
    seconds and reads the title, a round is begun only on a reading
    below the deadline, and the poll ends on a title that contains the
    login signal or on the first reading that is not below the deadline
    (so after 41 rounds at most); it then loads the application again.
    The one way out of this flow is an exception from the image lookup
    or from a title read, which leaves [ensure_auth]. *)
Theorem ensure_auth_flow d (w : World E) :
  match first_visit d w with
  | (Ok (_ :: _), w2) => ensure_auth d w = (Ok tt, w2)
  | (Ok [], w2) =>
      exists b3 w3 k (r : res unit) w4,
        safe_get d "https://chat.openai.com/" w2 = (Ok b3, w3) /\
        polls d (reading_add (host_time (clock w3)) 120) w3 k r w4 /\
        (k <= 41)%nat /\
        calls w4 = calls w3 ++ List.concat (repeat (poll_round d) k) /\
        match r with
        | Ok _ =>
            (signalled d w4 \/
             reading_lt (host_time (clock w4))
                        (reading_add (host_time (clock w3)) 120) = false) /\
            exists b5 w5,
              safe_get d base w4 = (Ok b5, w5) /\
              ensure_auth d w = (Ok tt, slept 2000 w5)
        | Raise e =>
            (exists w0, driver_title d w0 = (Raise e, w4)) /\
            ensure_auth d w = (Raise e, w4)
        end
  | (Raise e, w2) => ensure_auth d w = (Raise e, w2)
  end.
Proof. exact (ensure_auth_run d w). Qed.
End Authentication.

(** ** The profile directory *)

Section Profile.
Context {E : Type} {H : Host E}.

(** [create_driver], given a directory, starts Chrome on it first. *)
Lemma create_driver_calls h dir (w : World E) r w1 :
  create_driver h (Some dir) w = (r, w1) ->
  exists rest, calls w1 = calls w ++ CChrome (build_chrome_options dir h) :: rest.
Proof.
  unfold create_driver, bind, call, ret. simpl.
  destruct (reply_out (wd_chrome (build_chrome_options dir h) (host w)))
    as [d | e]; simpl.
  - destruct (reply_out (wd_set_script_timeout d 20 _)) as [[] | e];
      intros Hrun; inversion Hrun; subst; simpl;
      exists [CSetScriptTimeout d 20]; rewrite <- app_assoc; reflexivity.
  - intros Hrun. inversion Hrun; subst. exists []. reflexivity.
Qed.

Lemma main_profile_run args (w : World E) :
  session_dir args = None ->
  let dir := PathJoin (host_program_dir (host w)) ".chrome-session" in
  main_session_dir args (host_program_dir (host w)) = dir /\
  path_parse dir
  = (fst (path_parse (host_program_dir (host w))),
     snd (path_parse (host_program_dir (host w))) ++ [".chrome-session"]) /\
  exists r w' rest,
    main args w = (r, w') /\
    calls w' = calls w ++ CMkdir dir :: rest /\
    (reply_out (host_mkdir dir (host w)) = Ok tt ->
     exists h rest',
       rest = CChrome (build_chrome_options dir h) :: rest' /\
       hd_error (build_chrome_options dir h)
       = Some ("--user-data-dir=" ++ path_str dir)%string).
Proof.
  intros Hnone dir.
  assert (Hdir : main_session_dir args (host_program_dir (host w)) = dir).
  { unfold main_session_dir. rewrite Hnone. reflexivity. }
  split; [exact Hdir |].
  split.
  { unfold dir. cbn [path_parse]. change (path_root ".chrome-session") with "".
    change (path_parts ".chrome-session") with [".chrome-session"].
    destruct (path_parse (host_program_dir (host w))). reflexivity. }
  unfold main, def_, headless_env. unfold bind at 1 2. unfold ask at 1.
  rewrite Hdir. unfold bind at 1. unfold ensure_dir, call. cbv zeta.
  destruct (reply_out (host_mkdir dir (host w))) as [[] | e] eqn:Hmk.
  - unfold bind at 1, ask.
    set (w0 := answered (CMkdir dir) (host_mkdir dir (host w)) w).
    set (h := (headless args || selenium_headless (host w0))%bool).
    destruct (try_bind (create_driver h (Some dir))
                (fun e => eprint ("Failed to start Chrome: " ++ exn_str e)%string ;;
                          return_ 1)
                (fun driver => try_finally (workflow args driver) (cleanup driver))
                w0) as [r w'] eqn:Hrest.
    assert (Hcalls : exists rest',
               calls w' = calls w0 ++ CChrome (build_chrome_options dir h) :: rest').
    { unfold try_bind in Hrest.
      destruct (create_driver h (Some dir) w0) as [[d | e] w1] eqn:Hnew;
        destruct (create_driver_calls _ _ _ _ _ Hnew) as [l1 Hl1].
      - destruct (respects_try_finally grows grows_preorder _ _
                    (workflow_grows args d) (cleanup_grows d) _ _ _ Hrest)
          as [l2 Hl2].
        exists (l1 ++ l2). rewrite Hl2, Hl1, <- app_assoc. reflexivity.
      - unfold bind, eprint, return_, ret in Hrest. inversion Hrest; subst.
        exists l1. exact Hl1. }
    destruct Hcalls as [rest' Hcalls].
    destruct r as [o | e];
      do 2 eexists; exists (CChrome (build_chrome_options dir h) :: rest');
      (split; [reflexivity |]);
      (split; [rewrite Hcalls; unfold w0; simpl; rewrite <- app_assoc; reflexivity |]);
      intros _; exists h, rest'; (split; reflexivity).
  - do 2 eexists. exists []. split; [reflexivity |].
    split; [reflexivity |]. intros Habs. discriminate.
Qed.

(** C9.  Without [--session-dir], the profile directory is
    [.chrome-session] in the directory of the program file: it has the
    root and the parts of that directory and [.chrome-session] as its
    last part; it is the directory [main] creates first and, once it is
    created, the one whose text is the [--user-data-dir] Chrome is
    started with. *)
Theorem main_default_session_dir args (w : World E) :
  session_dir args = None ->
  let dir := PathJoin (host_program_dir (host w)) ".chrome-session" in
  main_session_dir args (host_program_dir (host w)) = dir /\
  path_parse dir
  = (fst (path_parse (host_program_dir (host w))),
     snd (path_parse (host_program_dir (host w))) ++ [".chrome-session"]) /\
  exists r w' rest,
    main args w = (r, w') /\
    calls w' = calls w ++ CMkdir dir :: rest /\
    (reply_out (host_mkdir dir (host w)) = Ok tt ->
     exists h rest',
       rest = CChrome (build_chrome_options dir h) :: rest' /\
       hd_error (build_chrome_options dir h)
       = Some ("--user-data-dir=" ++ path_str dir)%string).
Proof. exact (main_profile_run args w). Qed.
End Profile.

Example main_default_session_dir_witness :
  main_session_dir cli (PathOf "/opt/runner")
  = PathJoin (PathOf "/opt/runner") ".chrome-session" /\
  path_parse (PathJoin (PathOf "/opt/runner") ".chrome-session")
  = ("/", ["opt"; "runner"; ".chrome-session"]) /\
  exists r w' rest,
    main (H := fake sunny) cli fresh = (r, w') /\
    calls w' = CMkdir (PathJoin (PathOf "/opt/runner") ".chrome-session") :: rest /\
    (Ok tt = Ok tt ->
     exists h rest',
       rest = CChrome (build_chrome_options
                         (PathJoin (PathOf "/opt/runner") ".chrome-session") h)
                :: rest' /\
       hd_error (build_chrome_options
                   (PathJoin (PathOf "/opt/runner") ".chrome-session") h)
       = Some "--user-data-dir=/opt/runner/.chrome-session").
Proof. exact (main_default_session_dir (H := fake sunny) cli fresh eq_refl). Defined.

(** ** Runs on the scripted host *)

Example path_str_examples :
  path_str (PathJoin (PathOf "/") ".chrome-session") = "/.chrome-session" /\
  path_str (PathJoin (PathOf "/opt/runner") ".chrome-session")
  = "/opt/runner/.chrome-session" /\
  path_str (PathOf "/data/profile/") = "/data/profile" /\
  path_str (PathOf "./a//b") = "a/b" /\
  path_str (PathOf "a/../b") = "a/../b" /\
  path_str (PathOf "") = "." /\
  path_str (PathOf "//a") = "//a" /\
  path_str (PathOf "///a") = "/a" /\
  path_str (PathJoin (PathOf "/opt") "/srv/x") = "/srv/x".
Proof. repeat split; reflexivity. Qed.

(** A timeout no float can hold makes [WebDriverWait] raise while it is
    built: inside the [try] of [type_prompt] and [click_create], before
    the [try] of [wait_generation_complete]. *)
Example overflowing_timeout_runs :
  float_overflows (2 ^ 1024 - 2 ^ 970) = true /\
  float_overflows (2 ^ 1024 - 2 ^ 970 - 1) = false /\
  float_overflows 20 = false /\
  float_overflows 600 = false /\
  type_prompt (H := fake sunny) 1%nat "a red kite" (2 ^ 1024) fresh
  = (Ok false,
     mkWorld 0%nat 0 [] []
       ["Failed to type prompt: int too large to convert to float"]) /\
  click_create (H := fake sunny) 1%nat (2 ^ 1024) fresh
  = (Ok false,
     mkWorld 0%nat 0 [] []
       ["Failed to click create: int too large to convert to float"]) /\
  wait_generation_complete (H := fake sunny) 1%nat 0 (2 ^ 1024) fresh
  = (Raise overflow_error, fresh).
Proof. vm_compute. repeat split; reflexivity. Qed.

(** A program file kept in the root directory: the profile directory is
    [/.chrome-session]. *)
Example root_program_run :
  let host_ := fake (mkScenario (fun _ => None) 1%nat [] (fun _ => None) 0
                                (PathOf "/") (fun _ => None)) in
  hd_error (calls (snd (script (H := host_) cli fresh)))
  = Some (CMkdir (PathJoin (PathOf "/") ".chrome-session")) /\
  nth_error (calls (snd (script (H := host_) cli fresh))) 1
  = Some (CChrome [ "--user-data-dir=/.chrome-session";
                    "--profile-directory=Default";
                    "--no-sandbox";
                    "--disable-dev-shm-usage";
                    "--disable-features=VizDisplayCompositor";
                    "--disable-web-security" ]).
Proof. vm_compute. split; reflexivity. Qed.

Example sunny_run :
  script (H := fake sunny) cli fresh
  = (Exit 0,
     mkWorld 0%nat 2580
       [ CMkdir (PathJoin (PathOf "/opt/runner") ".chrome-session");
         CChrome [ "--user-data-dir=/opt/runner/.chrome-session";
                   "--profile-directory=Default"; "--no-sandbox";
                   "--disable-dev-shm-usage";
                   "--disable-features=VizDisplayCompositor";
                   "--disable-web-security" ];
         CSetScriptTimeout 1%nat 20;
         CGet 1%nat "https://sora.chatgpt.com/";
         CUntil 1%nat 10 document_ready;
         CSleep 2000;
         CFindElements 1%nat (TAG_NAME, "img");
         CUntilElement 1%nat 20 (element_to_be_clickable textarea_locator);
         CClear 7%nat;
         CSendKeys 7%nat "a red kite over the sea";
         CUntilElement 1%nat 20 (element_to_be_clickable create_locator);
         CExecuteScript 1%nat scroll_script [7%nat];
         CSleep 300;
         CPerform 1%nat [move_to_element 7%nat];
         CSleep 200;
         CClick 7%nat;
         CUntilElement 1%nat 60
           (presence_of_element_located
              (CSS_SELECTOR, "[data-index='0'] svg.h-8.w-8"));
         CUntil 1%nat 600
           (invisibility_of_element_located
              (CSS_SELECTOR, "[data-index='0'] svg.h-8.w-8"));
         CQuit 1%nat ]
       ["WAITING"; "DONE"] []).
Proof. vm_compute. reflexivity. Qed.

Example logged_out_run :
  calls (snd (ensure_auth (H := fake logged_out) 1%nat fresh))
  = [ CGet 1%nat "https://sora.chatgpt.com/"; CUntil 1%nat 10 document_ready;
      CSleep 2000; CFindElements 1%nat (TAG_NAME, "img");
      CGet 1%nat "https://chat.openai.com/"; CUntil 1%nat 10 document_ready;
      CSleep 3000; CTitle 1%nat;
      CSleep 3000; CTitle 1%nat;
      CSleep 3000; CTitle 1%nat;
      CGet 1%nat "https://sora.chatgpt.com/"; CUntil 1%nat 10 document_ready;
      CSleep 2000 ].
Proof. vm_compute. reflexivity. Qed.

Example never_logs_in_run :
  let end_ := snd (ensure_auth (H := fake never_logs_in) 1%nat fresh) in
  List.length (filter is_title (calls end_)) = 40%nat /\ clock end_ = 124235.
Proof. vm_compute. split; reflexivity. Qed.

Example no_textarea_run :
  let (t, end_) := script (H := fake no_textarea) cli fresh in
  t = Exit 2 /\ stdout end_ = [] /\ stderr end_ = ["Textarea not found"].
Proof. vm_compute. repeat split; reflexivity. Qed.

Example intercepted_run :
  let (t, end_) := script (H := fake intercepted) cli fresh in
  t = Exit 0 /\
  filter is_browser_call
    (firstn 7 (skipn 11 (calls end_)))
  = firstn 5 (fallback_chain 1%nat 7%nat).
Proof. vm_compute. split; reflexivity. Qed.

(** C5.  A browser session that is created is not always quit: when
    [webdriver.Chrome] has returned session 1 and setting its script
    timeout raises, [create_driver] raises with the session alive,
    [main] reports a failed start and returns 1 before its cleanup block
    is entered, and the process exits having called quit zero times, not
    once. *)
Theorem main_leaks_session :
  let dir := PathJoin (PathOf "/opt/runner") ".chrome-session" in
  let opts := build_chrome_options dir false in
  let w0 := snd (ensure_dir (H := fake dies_at_birth) dir fresh) in
  let (t, end_) := script (H := fake dies_at_birth) cli fresh in
  reply_out (wd_chrome (Host := fake dies_at_birth) opts (host w0)) = Ok 1%nat /\
  t = Exit 1 /\
  calls end_ = [CMkdir dir; CChrome opts; CSetScriptTimeout 1%nat 20] /\
  quit_calls end_ = [] /\
  stdout end_ = [] /\
  stderr end_ = ["Failed to start Chrome: chrome not reachable"].
Proof. vm_compute. repeat split; reflexivity. Qed.

Example headless_from_environment :
  selenium_headless
    (H := fake (mkScenario (fun _ => None) 1%nat [] (fun _ => None) 0
                           (PathOf "/opt/runner") (fun _ => Some "True")))
    0%nat
  = true.
Proof. reflexivity. Qed.

(** ** Standard error *)

Section StandardError.
Context {E : Type} {H : Host E}.

Lemma call_stderr {A} (c : Call) (op : E -> Reply E A) :
  respects (keeps stderr) (call c op).
Proof. intros w r w' Hrun. inversion Hrun. reflexivity. Qed.

Lemma sleep_stderr (ms : Z) : respects (E := E) (keeps stderr) (sleep ms).
Proof. intros w r w' Hrun. inversion Hrun. reflexivity. Qed.

Lemma print_stderr (line : string) : respects (E := E) (keeps stderr) (print line).
Proof. intros w r w' Hrun. inversion Hrun. reflexivity. Qed.

Hint Resolve call_stderr sleep_stderr print_stderr : frame.

Lemma safe_get_stderr d url : respects (keeps stderr) (safe_get d url).
Proof. unfold safe_get. unfold_calls. frame. Qed.

Lemma create_driver_stderr h sd : respects (keeps stderr) (create_driver h sd).
Proof. unfold create_driver. unfold_calls. frame. Qed.

Lemma click_button_robustly_stderr d b :
  respects (keeps stderr) (click_button_robustly d b).
Proof. unfold click_button_robustly. unfold_calls. frame. Qed.

Lemma before_stderr deadline : respects (E := E) (keeps stderr) (before deadline).
Proof. unfold before. frame. Qed.

Lemma poll_title_stderr d : respects (keeps stderr) (poll_title d).
Proof. unfold poll_title. unfold_calls. frame. Qed.

Hint Resolve safe_get_stderr before_stderr poll_title_stderr : frame.

Lemma ensure_auth_stderr d : respects (keeps stderr) (ensure_auth d).
Proof. unfold ensure_auth. unfold_calls. frame. Qed.

Lemma cleanup_stderr d : respects (keeps stderr) (cleanup d).
Proof. unfold cleanup. unfold_calls. frame. Qed.

(** What one [type_prompt] does, case by case on the host's answers. *)
Lemma type_prompt_run d text timeout (w : World E) :
  if float_overflows timeout
  then type_prompt d text timeout w
       = (Ok false, eprinted (type_prompt_complaint overflow_error) w)
  else
    let found := wd_until_element d timeout
                   (element_to_be_clickable textarea_locator) (host w) in
    let w0 := answered (CUntilElement d timeout
                          (element_to_be_clickable textarea_locator)) found w in
    match reply_out found with
    | Raise e =>
        type_prompt d text timeout w
        = (Ok false, eprinted (type_prompt_complaint e) w0)
    | Ok el =>
        let cleared := el_clear el (reply_next found) in
        let w1 := answered (CClear el) cleared w0 in
        match reply_out cleared with
        | Raise e =>
            type_prompt d text timeout w
            = (Ok false, eprinted (type_prompt_complaint e) w1)
        | Ok _ =>
            let typed := el_send_keys el text (reply_next cleared) in
            let w2 := answered (CSendKeys el text) typed w1 in
            match reply_out typed with
            | Raise e =>
                type_prompt d text timeout w
                = (Ok false, eprinted (type_prompt_complaint e) w2)
            | Ok _ => type_prompt d text timeout w = (Ok true, w2)
            end
        end
    end.
Proof.
  destruct (float_overflows timeout) eqn:Hfits;
    unfold type_prompt, def_, try_except, bind, new_wait, until_element, clear,
      send_keys, call, eprint, eprinted, raise, return_, ret;
    rewrite Hfits; [reflexivity |].
  cbv beta iota zeta.
  destruct (reply_out (wd_until_element d timeout _ (host w))) as [el | e];
    [| destruct e; reflexivity].
  cbn [host answered].
  destruct (reply_out (el_clear el _)) as [[] | e]; [| destruct e; reflexivity].
  cbn [host answered].
  destruct (reply_out (el_send_keys el text _)) as [[] | e];
    [reflexivity | destruct e; reflexivity].
Qed.

(** What one [click_create] does: a wait that cannot be built or that
    raises is reported on standard error; once the button is there, the
    answer is that of [click_button_robustly], and nothing is
    reported. *)
Lemma click_create_run d timeout (w : World E) :
  if float_overflows timeout
  then exists w',
         click_create d timeout w = (Ok false, w') /\
         calls w' = calls w /\
         stderr w' = stderr w ++ [click_create_complaint overflow_error]
  else
  let found := wd_until_element d timeout (element_to_be_clickable create_locator)
                                (host w) in
  let w0 := answered (CUntilElement d timeout (element_to_be_clickable create_locator))
                     found w in
  match reply_out found with
  | Ok button =>
      exists b w',
        click_button_robustly d button w0 = (Ok b, w') /\
        click_create d timeout w = (Ok b, w') /\
        stderr w' = stderr w
  | Raise e =>
      exists w',
        click_create d timeout w = (Ok false, w') /\
        calls w' = calls w0 /\
        stderr w' = stderr w ++ [click_create_complaint e]
  end.
Proof.
  destruct (float_overflows timeout) eqn:Hfits.
  { unfold click_create, def_, try_except, bind, new_wait, eprint, raise,
      return_, ret.
    rewrite Hfits. eexists. split; [reflexivity |]. split; reflexivity. }
  intros found w0.
  unfold click_create, def_, try_except, bind, new_wait, until_element, call,
    eprint, raise, return_, ret.
  rewrite Hfits. cbv beta iota zeta. fold found. fold w0.
  destruct (reply_out found) as [button | e].
  - destruct (click_button_robustly_returns d button w0) as [b [w' Hb]].
    exists b, w'. rewrite Hb. split; [reflexivity |]. split; [reflexivity |].
    exact (click_button_robustly_stderr _ _ _ _ _ Hb).
  - destruct e; eexists; (split; [reflexivity |]); split; reflexivity.
Qed.

(** What one [wait_generation_complete] does.  The wait is built before
    the [try], so a timeout [float] cannot hold raises out of the
    function.  Not seeing the spinner appear within 60 seconds is let
    pass; any other exception of that first wait ends the function
    before the second wait. *)
Lemma wait_generation_complete_run d index timeout (w : World E) :
  if float_overflows timeout
  then wait_generation_complete d index timeout w = (Raise overflow_error, w)
  else
  let sel := spinner_locator index in
  let seen := wd_until_element d 60 (presence_of_element_located sel) (host w) in
  let w0 := answered (CUntilElement d 60 (presence_of_element_located sel)) seen w in
  let gone := wd_until d timeout (invisibility_of_element_located sel)
                       (reply_next seen) in
  let w1 := answered (CUntil d timeout (invisibility_of_element_located sel))
                     gone w0 in
  let second_wait :=
    match reply_out gone with
    | Ok _ => wait_generation_complete d index timeout w = (Ok true, w1)
    | Raise e =>
        exists w',
          wait_generation_complete d index timeout w = (Ok false, w') /\
          calls w' = calls w1 /\
          stderr w' = stderr w ++ [wait_generation_complaint e]
    end in
  match reply_out seen with
  | Ok _ => second_wait
  | Raise (TimeoutException _) => second_wait
  | Raise e =>
      exists w',
        wait_generation_complete d index timeout w = (Ok false, w') /\
        calls w' = calls w0 /\
        stderr w' = stderr w ++ [wait_generation_complaint e]
  end.
Proof.
  destruct (float_overflows timeout) eqn:Hfits.
  { unfold wait_generation_complete, def_, bind, new_wait, raise.
    rewrite Hfits. reflexivity. }
  intros sel seen w0 gone w1 second_wait.
  subst second_wait w1 gone w0 seen sel.
  unfold wait_generation_complete, def_, try_except, seq, bind, new_wait,
    until_element, until, call, eprint, raise, return_, pass, ret.
  rewrite Hfits. cbv beta iota zeta.
  destruct (reply_out (wd_until_element d 60 _ (host w))) as [el | e];
    [| destruct e]; cbn [host answered];
    try (destruct (reply_out (wd_until d timeout _ _)) as [[] | e];
         [reflexivity | destruct e]);
    eexists; (split; [reflexivity |]); split; reflexivity.
Qed.

Lemma type_prompt_true_stderr d text timeout (w w' : World E) :
  type_prompt d text timeout w = (Ok true, w') -> stderr w' = stderr w.
Proof.
  intros Hrun. pose proof (type_prompt_run d text timeout w) as Hcases.
  cbv zeta in Hcases.
  destruct (float_overflows timeout);
    [rewrite Hcases in Hrun; discriminate |].
  destruct (reply_out (wd_until_element d timeout _ (host w))) as [el | e];
    [| rewrite Hcases in Hrun; discriminate].
  destruct (reply_out (el_clear el _)) as [[] | e];
    [| rewrite Hcases in Hrun; discriminate].
  destruct (reply_out (el_send_keys el text _)) as [[] | e];
    rewrite Hcases in Hrun; [| discriminate].
  inversion Hrun; subst. reflexivity.
Qed.

Lemma click_create_true_stderr d timeout (w w' : World E) :
  click_create d timeout w = (Ok true, w') -> stderr w' = stderr w.
Proof.
  intros Hrun. pose proof (click_create_run d timeout w) as Hcases.
  cbv zeta in Hcases.
  destruct (float_overflows timeout).
  { destruct Hcases as [v [Hv _]]. rewrite Hv in Hrun. discriminate. }
  destruct (reply_out (wd_until_element d timeout _ (host w))) as [button | e].
  - destruct Hcases as [b [v [_ [Hv Herr]]]].
    rewrite Hv in Hrun. inversion Hrun; subst. exact Herr.
  - destruct Hcases as [v [Hv _]]. rewrite Hv in Hrun. discriminate.
Qed.

Lemma wait_generation_complete_true_stderr d index timeout (w w' : World E) :
  wait_generation_complete d index timeout w = (Ok true, w') ->
  stderr w' = stderr w.
Proof.
  intros Hrun. pose proof (wait_generation_complete_run d index timeout w) as Hcases.
  cbv zeta in Hcases.
  destruct (float_overflows timeout);
    [rewrite Hcases in Hrun; discriminate |].
  destruct (reply_out (wd_until_element d 60 _ (host w))) as [el | e];
    [| destruct e];
    try (destruct (reply_out (wd_until d timeout _ _)) as [[] | e2]);
    first [ rewrite Hcases in Hrun; inversion Hrun; subst; reflexivity
          | destruct Hcases as [v [Hv _]]; rewrite Hv in Hrun; discriminate ].
Qed.
End StandardError.

(** ** Further properties of the script *)

Section RobustClickChain.
Context {E : Type} {H : Host E}.

(** X1.  Whatever the browser answers, robust click returns a boolean
    and stops at the first click attempt that does not raise: it returns
    true in the world that attempt left, be it the native click, the
    pointer click, the scripted click or the synthetic event, tried in
    this order after the scroll and the guarded hover, so no call is
    made after a click that succeeded.  It returns false in the world
    the scroll left when the scroll script raised, before any click, and
    in the world the synthetic event left when all four attempts
    raised. *)
Theorem click_button_robustly_chain d button (w : World E) :
  match execute_script d scroll_script [button] w with
  | (Raise _, v) => click_button_robustly d button w = (Ok false, v)
  | (Ok _, v) =>
    match click button (hovered d button (slept 300 v)) with
    | (Ok _, v1) => click_button_robustly d button w = (Ok true, v1)
    | (Raise _, v1) =>
      match perform d [move_to_element button; click_pointer] v1 with
      | (Ok _, v2) => click_button_robustly d button w = (Ok true, v2)
      | (Raise _, v2) =>
        match execute_script d click_script [button] v2 with
        | (Ok _, v3) => click_button_robustly d button w = (Ok true, v3)
        | (Raise _, v3) =>
          match execute_script d dispatch_script [button] v3 with
          | (Ok _, v4) => click_button_robustly d button w = (Ok true, v4)
          | (Raise _, v4) => click_button_robustly d button w = (Ok false, v4)
          end
        end
      end
    end
  end.
Proof. exact (click_button_robustly_cascade d button w). Qed.
End RobustClickChain.

Section LaunchOptions.
Context {E : Type} {H : Host E}.

Lemma selenium_headless_true (e : E) :
  selenium_headless e = true <->
  exists s, host_getenv "SELENIUM_HEADLESS" e = Some s /\ str_lower s = "true".
Proof.
  unfold selenium_headless.
  destruct (host_getenv "SELENIUM_HEADLESS" e) as [s |].
  - rewrite String.eqb_eq. split.
    + intros Hs. exists s. auto.
    + intros [s' [Hs' Hlow]]. inversion Hs'; subst. exact Hlow.
  - split; [discriminate |]. intros [s [Habs _]]. discriminate.
Qed.

Lemma headless_option (dir : Path) (h : bool) :
  In "--headless=new" (build_chrome_options dir h) <-> h = true.
Proof.
  unfold build_chrome_options. split.
  - destruct h; [reflexivity |]. simpl.
    intros [Habs | [Habs | [Habs | [Habs | [Habs | [Habs | []]]]]]];
      discriminate.
  - intros ->. apply in_or_app. right. left. reflexivity.
Qed.

(** Once the profile directory exists, [main] is the launch and what
    follows it. *)
Lemma main_after_mkdir args (w w0 : World E) :
  let dir := main_session_dir args (host_program_dir (host w)) in
  ensure_dir dir w = (Ok tt, w0) ->
  main args w =
  def_ 0 (try_bind
            (create_driver (headless args || selenium_headless (host w0)) (Some dir))
            (fun e => eprint ("Failed to start Chrome: " ++ exn_str e)%string ;;
                      return_ 1)
            (fun driver => try_finally (workflow args driver) (cleanup driver))) w0.
Proof.
  intros dir Hdir.
  unfold main, def_, headless_env. unfold bind at 1 2. unfold ask at 1.
  unfold bind at 1. fold dir. rewrite Hdir. unfold bind at 1, ask. reflexivity.
Qed.

Lemma main_mkdir_raises args (w w0 : World E) e :
  ensure_dir (main_session_dir args (host_program_dir (host w))) w = (Raise e, w0) ->
  main args w = (Raise e, w0).
Proof.
  intros Hdir.
  unfold main, def_, headless_env. unfold bind at 1 2. unfold ask at 1.
  unfold bind at 1. rewrite Hdir. reflexivity.
Qed.

(** A launch that raises: [main] reports it and returns 1. *)
Lemma main_launch_raises args (w w0 w1 : World E) e :
  let dir := main_session_dir args (host_program_dir (host w)) in
  ensure_dir dir w = (Ok tt, w0) ->
  create_driver (headless args || selenium_headless (host w0)) (Some dir) w0
  = (Raise e, w1) ->
  main args w =
  (Ok 1, mkWorld (host w1) (clock w1) (calls w1) (stdout w1)
                 (stderr w1 ++ [("Failed to start Chrome: " ++ exn_str e)%string])).
Proof.
  intros dir Hdir Hnew. rewrite (main_after_mkdir _ _ _ Hdir). fold dir.
  unfold def_, try_bind, bind. rewrite Hnew. reflexivity.
Qed.

(** The first two calls of a run whose directory could be made. *)
Lemma main_launch_calls args (w w0 : World E) :
  let dir := main_session_dir args (host_program_dir (host w)) in
  ensure_dir dir w = (Ok tt, w0) ->
  exists r w' rest,
    main args w = (r, w') /\
    calls w' = calls w ++
      CMkdir dir
      :: CChrome (build_chrome_options dir
                    (headless args || selenium_headless (host w0)))
      :: rest.
Proof.
  intros dir Hdir.
  assert (Hw0 : calls w0 = calls w ++ [CMkdir dir]).
  { unfold ensure_dir, call in Hdir. inversion Hdir. reflexivity. }
  set (h := (headless args || selenium_headless (host w0))%bool).
  destruct (create_driver h (Some dir) w0) as [[d | e] w1] eqn:Hnew;
    destruct (create_driver_calls _ _ _ _ _ Hnew) as [l1 Hl1].
  - assert (Hl : launched args w d w1) by (exists w0; auto).
    destruct (workflow args d w1) as [r w2] eqn:Hwork.
    destruct (script_of_workflow _ _ _ _ _ _ Hl Hwork)
      as [w' [_ [Hmain [_ [_ Hlast]]]]].
    destruct (workflow_grows args d _ _ _ Hwork) as [l2 Hl2].
    do 2 eexists. exists (l1 ++ l2 ++ [CQuit d]). split; [exact Hmain |].
    rewrite Hlast, Hl2, Hl1, Hw0. rewrite <- !app_assoc. reflexivity.
  - rewrite (main_launch_raises _ _ _ _ _ Hdir Hnew).
    do 2 eexists. exists l1. split; [reflexivity |].
    cbn [calls]. rewrite Hl1, Hw0, <- app_assoc. reflexivity.
Qed.
End LaunchOptions.

Section Protocol.
Context {E : Type} {H : Host E}.

(** Exit code and output of the [try] block of [main], together. *)
Lemma workflow_protocol args d (w1 : World E) :
  exists r w2,
    workflow args d w1 = (r, w2) /\
    match r with
    | Ok (Some code) =>
        (code = 0 /\ stdout w2 = stdout w1 ++ ["WAITING"; "DONE"] /\
         stderr w2 = stderr w1) \/
        (code = 4 /\ stdout w2 = stdout w1 ++ ["WAITING"]) \/
        ((code = 2 \/ code = 3) /\ stdout w2 = stdout w1)
    | Ok None => False
    | Raise e => stdout w2 = stdout w1
    end.
Proof.
  unfold workflow, seq, bind, print, return_, pass, ret.
  destruct (ensure_auth d w1) as [[[] | e] w2] eqn:Hauth.
  - pose proof (ensure_auth_stdout _ _ _ _ Hauth) as Ho2.
    pose proof (ensure_auth_stderr _ _ _ _ Hauth) as He2.
    unfold keeps in Ho2, He2.
    destruct (type_prompt_returns d (prompt args) 20 w2) as [b3 [w3 Hprompt]].
    pose proof (type_prompt_stdout _ _ _ _ _ _ Hprompt) as Ho3. unfold keeps in Ho3.
    rewrite Hprompt. destruct b3; simpl.
    + pose proof (type_prompt_true_stderr _ _ _ _ _ Hprompt) as He3.
      destruct (click_create_returns d 20 w3) as [b4 [w4 Hclick]].
      pose proof (click_create_stdout _ _ _ _ _ Hclick) as Ho4. unfold keeps in Ho4.
      rewrite Hclick. destruct b4; simpl.
      * pose proof (click_create_true_stderr _ _ _ _ Hclick) as He4.
        destruct (wait_generation_complete_returns d 0 600 eq_refl
              (printed "WAITING" w4))
          as [b5 [w5 Hwait]].
        pose proof (wait_generation_complete_stdout _ _ _ _ _ _ Hwait) as Ho5.
        unfold keeps in Ho5. cbn [stdout printed] in Ho5.
        rewrite Hwait. destruct b5; simpl.
        -- pose proof (wait_generation_complete_true_stderr _ _ _ _ _ Hwait) as He5.
           cbn [stderr printed] in He5.
           do 2 eexists. split; [reflexivity |]. left.
           split; [reflexivity |]. cbn [stdout stderr printed].
           rewrite Ho5, Ho4, Ho3, Ho2, He5, He4, He3, He2, <- app_assoc.
           split; reflexivity.
        -- do 2 eexists. split; [reflexivity |]. right. left.
           split; [reflexivity |]. rewrite Ho5, Ho4, Ho3, Ho2. reflexivity.
      * do 2 eexists. split; [reflexivity |]. right. right.
        split; [right; reflexivity |]. rewrite Ho4, Ho3, Ho2. reflexivity.
    + do 2 eexists. split; [reflexivity |]. right. right.
      split; [left; reflexivity |]. rewrite Ho3, Ho2. reflexivity.
  - do 2 eexists. split; [reflexivity |].
    exact (ensure_auth_stdout _ _ _ _ Hauth).
Qed.

(** X13.  Once the command line is parsed, the stdout markers can be
    read off the way [sys.exit(main())] ends: exit code 0 goes with
    exactly WAITING then DONE (and with nothing written to standard
    error by the script), exit code 4 with exactly WAITING, exit codes
    1, 2 and 3 and an exception leaving [main] with no line on standard
    output; and [main] returns no other code. *)
Theorem script_stdout_protocol args (w : World E) :
  exists t w',
    script args w = (t, w') /\
    match t with
    | Exit code =>
        (code = 0 /\ stdout w' = stdout w ++ ["WAITING"; "DONE"] /\
         stderr w' = stderr w) \/
        (code = 4 /\ stdout w' = stdout w ++ ["WAITING"]) \/
        ((code = 1 \/ code = 2 \/ code = 3) /\ stdout w' = stdout w)
    | Uncaught _ => stdout w' = stdout w
    end.
Proof.
  set (dir := main_session_dir args (host_program_dir (host w))).
  destruct (ensure_dir dir w) as [[[] | e] w0] eqn:Hdir.
  - pose proof (call_stdout _ _ _ _ _ Hdir) as Ho0.
    pose proof (call_stderr _ _ _ _ _ Hdir) as He0. unfold keeps in Ho0, He0.
    destruct (create_driver (headless args || selenium_headless (host w0))
                            (Some dir) w0) as [[d | e] w1] eqn:Hnew.
    + pose proof (create_driver_stdout _ _ _ _ _ Hnew) as Ho1.
      pose proof (create_driver_stderr _ _ _ _ _ Hnew) as He1.
      unfold keeps in Ho1, He1.
      assert (Hl : launched args w d w1) by (exists w0; auto).
      destruct (workflow_protocol args d w1) as [r [w2 [Hwork Hr]]].
      destruct (finally_cleanup _ d _ _ _ Hwork) as [w' [Hfin [_ [Ho' _]]]].
      assert (He' : stderr w' = stderr w2).
      { unfold try_finally in Hfin. rewrite Hwork in Hfin.
        destruct (cleanup d w2) as [[[] | e] v] eqn:Hclean;
          inversion Hfin; subst; exact (cleanup_stderr _ _ _ _ Hclean). }
      exists (ending r), w'. unfold script. rewrite (main_launched _ _ _ _ Hl).
      unfold def_, bind. rewrite Hfin.
      destruct r as [[code |] | e]; simpl.
      * split; [reflexivity |]. rewrite Ho', He'.
        destruct Hr as [[Hc [Ho He]] | [[Hc Ho] | [Hc Ho]]].
        -- left. rewrite Ho, He, Ho1, Ho0, He1, He0. auto.
        -- right. left. rewrite Ho, Ho1, Ho0. auto.
        -- right. right. rewrite Ho, Ho1, Ho0. split; [| reflexivity].
           destruct Hc; auto.
      * contradiction.
      * split; [reflexivity |]. rewrite Ho', Hr, Ho1, Ho0. reflexivity.
    + pose proof (create_driver_stdout _ _ _ _ _ Hnew) as Ho1. unfold keeps in Ho1.
      unfold script. rewrite (main_launch_raises _ _ _ _ _ Hdir Hnew).
      do 2 eexists. split; [reflexivity |]. right. right.
      split; [left; reflexivity |]. cbn [stdout]. rewrite Ho1, Ho0. reflexivity.
  - pose proof (call_stdout _ _ _ _ _ Hdir) as Ho0. unfold keeps in Ho0.
    unfold script. rewrite (main_mkdir_raises _ _ _ _ Hdir).
    do 2 eexists. split; [reflexivity |]. exact Ho0.
Qed.
End Protocol.

Section Steps2.
Context {E : Type} {H : Host E}.

(** X2.  [type_prompt] never raises.  It returns true exactly when the
    wait for the prompt box, the clearing of the element that wait
    returned and the sending of the prompt text to that same element all
    went through, in this order, and then it has written nothing.  It
    returns false as soon as one of them raises, making no further call
    and writing one line to standard error for the exception raised:
    "Textarea not found" for a [TimeoutException], "Failed to type
    prompt: ..." with its text for any other.  A timeout that [float]
    cannot hold is such another exception, raised before any call. *)
Theorem type_prompt_behaviour d text timeout (w : World E) :
  if float_overflows timeout
  then type_prompt d text timeout w
       = (Ok false, eprinted (type_prompt_complaint overflow_error) w)
  else
    let found := wd_until_element d timeout
                   (element_to_be_clickable textarea_locator) (host w) in
    let w0 := answered (CUntilElement d timeout
                          (element_to_be_clickable textarea_locator)) found w in
    match reply_out found with
    | Raise e =>
        type_prompt d text timeout w
        = (Ok false, eprinted (type_prompt_complaint e) w0)
    | Ok el =>
        let cleared := el_clear el (reply_next found) in
        let w1 := answered (CClear el) cleared w0 in
        match reply_out cleared with
        | Raise e =>
            type_prompt d text timeout w
            = (Ok false, eprinted (type_prompt_complaint e) w1)
        | Ok _ =>
            let typed := el_send_keys el text (reply_next cleared) in
            let w2 := answered (CSendKeys el text) typed w1 in
            match reply_out typed with
            | Raise e =>
                type_prompt d text timeout w
                = (Ok false, eprinted (type_prompt_complaint e) w2)
            | Ok _ => type_prompt d text timeout w = (Ok true, w2)
            end
        end
    end.
Proof. exact (type_prompt_run d text timeout w). Qed.

(** X3.  [click_create] never raises.  When the wait for the "Create
    video" button raises, it returns false without trying any click and
    writes one line to standard error.  When the button is found, it
    returns whatever [click_button_robustly] returns on that button and
    writes nothing to standard error, also when that answer is false.
    A timeout that [float] cannot hold makes it return false with one
    line on standard error and no call at all. *)
Theorem click_create_behaviour d timeout (w : World E) :
  if float_overflows timeout
  then exists w',
         click_create d timeout w = (Ok false, w') /\
         calls w' = calls w /\
         stderr w' = stderr w ++ [click_create_complaint overflow_error]
  else
  let found := wd_until_element d timeout (element_to_be_clickable create_locator)
                                (host w) in
  let w0 := answered (CUntilElement d timeout (element_to_be_clickable create_locator))
                     found w in
  match reply_out found with
  | Ok button =>
      exists b w',
        click_button_robustly d button w0 = (Ok b, w') /\
        click_create d timeout w = (Ok b, w') /\
        stderr w' = stderr w
  | Raise e =>
      exists w',
        click_create d timeout w = (Ok false, w') /\
        calls w' = calls w0 /\
        stderr w' = stderr w ++ [click_create_complaint e]
  end.
Proof. exact (click_create_run d timeout w). Qed.

(** X4.  [wait_generation_complete] builds its wait before its [try]:
    for a timeout that [float] cannot hold it raises [OverflowError]
    without any call.  For every other timeout it does not raise.  It
    first waits up to 60 for the spinner of the given index to be
    present; a [TimeoutException] there is let pass, any other exception
    makes it return false, with one line on standard error, before the
    second wait is made.  Otherwise it waits, with the given timeout and
    on the same selector, for the spinner to be invisible, and returns
    true when that wait succeeds, false with one line on standard error
    when it raises. *)
Theorem wait_generation_complete_behaviour d index timeout (w : World E) :
  if float_overflows timeout
  then wait_generation_complete d index timeout w = (Raise overflow_error, w)
  else
  let sel := spinner_locator index in
  let seen := wd_until_element d 60 (presence_of_element_located sel) (host w) in
  let w0 := answered (CUntilElement d 60 (presence_of_element_located sel)) seen w in
  let gone := wd_until d timeout (invisibility_of_element_located sel)
                       (reply_next seen) in
  let w1 := answered (CUntil d timeout (invisibility_of_element_located sel))
                     gone w0 in
  let second_wait :=
    match reply_out gone with
    | Ok _ => wait_generation_complete d index timeout w = (Ok true, w1)
    | Raise e =>
        exists w',
          wait_generation_complete d index timeout w = (Ok false, w') /\
          calls w' = calls w1 /\
          stderr w' = stderr w ++ [wait_generation_complaint e]
    end in
  match reply_out seen with
  | Ok _ => second_wait
  | Raise (TimeoutException _) => second_wait
  | Raise e =>
      exists w',
        wait_generation_complete d index timeout w = (Ok false, w') /\
        calls w' = calls w0 /\
        stderr w' = stderr w ++ [wait_generation_complaint e]
  end.
Proof. exact (wait_generation_complete_run d index timeout w). Qed.

(** X5.  Failed page loads never stop [ensure_auth]: when the image
    lookup and the title reads do not raise, it returns normally,
    whatever the navigation calls do, and writes nothing to either
    stream. *)
Theorem ensure_auth_returns d (w : World E) :
  (forall e, exists imgs,
      reply_out (wd_find_elements d (TAG_NAME, "img") e) = Ok imgs) ->
  (forall e, exists title, reply_out (wd_title d e) = Ok title) ->
  exists w', ensure_auth d w = (Ok tt, w') /\
             stdout w' = stdout w /\ stderr w' = stderr w.
Proof.
  intros Hlook Htitle.
  assert (Hok : exists w', ensure_auth d w = (Ok tt, w')).
  { pose proof (ensure_auth_run d w) as Hrun.
    destruct (first_visit d w) as [[[| img imgs] | e] w2] eqn:Hvisit.
    - destruct Hrun as (b3 & w3 & k & r & w4 & _ & _ & _ & _ & Hr).
      destruct r as [[] | e].
      + destruct Hr as [_ (b5 & w5 & _ & Hauth)]. eauto.
      + destruct Hr as [[w0 Hraise] _].
        unfold driver_title, call in Hraise.
        destruct (Htitle (host w0)) as [title Ht].
        rewrite Ht in Hraise. discriminate.
    - eauto.
    - unfold first_visit, bind, sleep, find_elements, call in Hvisit.
      destruct (safe_get_returns d base w) as [b [w1 Hb]]. rewrite Hb in Hvisit.
      cbn [host slept] in Hvisit.
      destruct (Hlook (host w1)) as [imgs Hi].
      rewrite Hi in Hvisit. discriminate. }
  destruct Hok as [w' Hauth]. exists w'. split; [exact Hauth |].
  split; [exact (ensure_auth_stdout _ _ _ _ Hauth)
         | exact (ensure_auth_stderr _ _ _ _ Hauth)].
Qed.
End Steps2.

Example ensure_auth_returns_witness :
  exists w', ensure_auth (H := fake offline) 1%nat fresh = (Ok tt, w') /\
             stdout w' = [] /\ stderr w' = [].
Proof.
  apply (ensure_auth_returns (H := fake offline)).
  - intros e. eexists. reflexivity.
  - intros e. eexists. reflexivity.
Defined.

Section Launch.
Context {E : Type} {H : Host E}.

(** X7.  Called without a directory, [create_driver] asks for the
    working directory and starts Chrome on [.chrome-session] inside it;
    when the working directory cannot be read, the exception leaves
    [create_driver] and Chrome is not started. *)
Theorem create_driver_default_directory (h : bool) (w : World E) :
  let cwd := host_getcwd (host w) in
  match reply_out cwd with
  | Ok path =>
      exists r w' rest,
        create_driver h None w = (r, w') /\
        calls w' = calls w ++
          CGetcwd
          :: CChrome (build_chrome_options
                        (PathJoin (PathOf path) ".chrome-session") h)
          :: rest
  | Raise e =>
      exists w',
        create_driver h None w = (Raise e, w') /\
        calls w' = calls w ++ [CGetcwd]
  end.
Proof.
  unfold create_driver, bind, call, ret. cbv beta iota zeta.
  destruct (reply_out (host_getcwd (host w))) as [path | e].
  - cbn [host answered].
    destruct (reply_out (wd_chrome _ _)) as [d | e].
    + cbn [host answered].
      destruct (reply_out (wd_set_script_timeout d 20 _)) as [[] | e];
        do 2 eexists; exists [CSetScriptTimeout d 20];
        (split; [reflexivity |]); cbn [calls answered];
        rewrite <- !app_assoc; reflexivity.
    + do 2 eexists. exists []. split; [reflexivity |].
      cbn [calls answered]. rewrite <- !app_assoc. reflexivity.
  - eexists. split; reflexivity.
Qed.

(** The directory [main] makes and the options it starts Chrome with,
    for any command line. *)
Lemma main_directory_calls args (w : World E) :
  let dir := main_session_dir args (host_program_dir (host w)) in
  let made := host_mkdir dir (host w) in
  exists r w' rest,
    main args w = (r, w') /\
    calls w' = calls w ++ CMkdir dir :: rest /\
    (reply_out made = Ok tt ->
     exists rest',
       rest = CChrome (build_chrome_options dir
                         (headless args || selenium_headless (reply_next made)))
                :: rest').
Proof.
  intros dir made.
  destruct (ensure_dir dir w) as [[[] | e] w0] eqn:Hdir.
  - destruct (main_launch_calls args w w0 Hdir) as [r [w' [rest [Hmain Hcalls]]]].
    do 3 eexists. split; [exact Hmain |]. split; [exact Hcalls |].
    intros _. eexists. unfold ensure_dir, call in Hdir. inversion Hdir.
    reflexivity.
  - rewrite (main_mkdir_raises _ _ _ _ Hdir).
    do 2 eexists. exists []. split; [reflexivity |].
    unfold ensure_dir, call in Hdir. inversion Hdir; subst. fold dir made.
    split; [reflexivity |]. intros Habs. fold dir made in H1.
    rewrite Habs in H1. discriminate.
Qed.

(** X8.  Headless mode is the flag or the environment: in a run whose
    profile directory could be made, Chrome is started right after, and
    its options contain [--headless=new] exactly when [--headless] was
    given or SELENIUM_HEADLESS is set to a value that reads "true" once
    lower-cased.  An unset variable counts as false. *)
Theorem main_headless_option args (w : World E) :
  let dir := main_session_dir args (host_program_dir (host w)) in
  let made := host_mkdir dir (host w) in
  reply_out made = Ok tt ->
  exists r w' opts rest,
    main args w = (r, w') /\
    calls w' = calls w ++ CMkdir dir :: CChrome opts :: rest /\
    (In "--headless=new" opts <->
     headless args = true \/
     exists s, host_getenv "SELENIUM_HEADLESS" (reply_next made) = Some s /\
               str_lower s = "true").
Proof.
  intros dir made Hmade.
  destruct (main_directory_calls args w) as [r [w' [rest [Hmain [Hcalls Hrest]]]]].
  destruct (Hrest Hmade) as [rest' ->].
  do 4 eexists. split; [exact Hmain |]. split; [exact Hcalls |].
  rewrite headless_option, orb_true_iff, selenium_headless_true. reflexivity.
Qed.

(** X9.  A non-empty [--session-dir] is made a path: [Path(s)] is the
    directory [main] makes first and, once made, the one whose text,
    [s] as pathlib writes it and not as it was typed, is the
    [--user-data-dir] Chrome is started with. *)
Theorem main_session_dir_override args (w : World E) s :
  session_dir args = Some s ->
  s <> "" ->
  exists r w' rest,
    main args w = (r, w') /\
    calls w' = calls w ++ CMkdir (PathOf s) :: rest /\
    (reply_out (host_mkdir (PathOf s) (host w)) = Ok tt ->
     exists h rest',
       rest = CChrome (build_chrome_options (PathOf s) h) :: rest' /\
       hd_error (build_chrome_options (PathOf s) h)
       = Some ("--user-data-dir=" ++ path_str (PathOf s))%string).
Proof.
  intros Hs Hne.
  assert (Hdir : main_session_dir args (host_program_dir (host w)) = PathOf s).
  { unfold main_session_dir. rewrite Hs. destruct s; [contradiction | reflexivity]. }
  destruct (main_directory_calls args w) as [r [w' [rest [Hmain [Hcalls Hrest]]]]].
  rewrite Hdir in Hcalls, Hrest.
  do 3 eexists. split; [exact Hmain |]. split; [exact Hcalls |].
  intros Hmade. destruct (Hrest Hmade) as [rest' ->].
  do 2 eexists. split; reflexivity.
Qed.

(** X10.  An empty [--session-dir] counts as none: the run is the one
    of the same command line without the flag. *)
Theorem main_empty_session_dir text h (w : World E) :
  main (mkArgs text h (Some "")) w = main (mkArgs text h None) w.
Proof. reflexivity. Qed.

(** X11.  When [create_driver] raises, [main] returns 1: the process
    exits with code 1 after writing "Failed to start Chrome: ..." with
    the exception's text to standard error, and does nothing else: no
    line on standard output, no further call, no quit. *)
Theorem main_launch_failure args (w w0 w1 : World E) e :
  let dir := main_session_dir args (host_program_dir (host w)) in
  ensure_dir dir w = (Ok tt, w0) ->
  create_driver (headless args || selenium_headless (host w0)) (Some dir) w0
  = (Raise e, w1) ->
  exists w',
    script args w = (Exit 1, w') /\
    stderr w' = stderr w ++ [("Failed to start Chrome: " ++ exn_str e)%string] /\
    stdout w' = stdout w /\
    calls w' = calls w1 /\
    quit_calls w' = quit_calls w.
Proof.
  intros dir Hdir Hnew.
  unfold script. rewrite (main_launch_raises _ _ _ _ _ Hdir Hnew).
  eexists. split; [reflexivity |]. cbn [stderr stdout calls].
  rewrite (create_driver_stderr _ _ _ _ _ Hnew), (call_stderr _ _ _ _ _ Hdir).
  rewrite (create_driver_stdout _ _ _ _ _ Hnew), (call_stdout _ _ _ _ _ Hdir).
  repeat split. unfold quit_calls at 1. cbn [calls].
  change (filter is_quit (calls w1)) with (quit_calls w1).
  rewrite (create_driver_quits _ _ _ _ _ Hnew).
  refine (call_quits _ _ _ _ _ _ Hdir). reflexivity.
Qed.

(** X12.  When the profile directory cannot be made, [main] does not
    catch the exception: it raises it, having made no other call, so
    started no browser, and having written nothing itself. *)
Theorem main_mkdir_failure args (w : World E) e :
  let dir := main_session_dir args (host_program_dir (host w)) in
  reply_out (host_mkdir dir (host w)) = Raise e ->
  exists w',
    main args w = (Raise e, w') /\
    calls w' = calls w ++ [CMkdir dir] /\
    stdout w' = stdout w /\ stderr w' = stderr w.
Proof.
  intros dir Hmade.
  assert (Hdir : ensure_dir dir w
                 = (Raise e, answered (CMkdir dir) (host_mkdir dir (host w)) w)).
  { unfold ensure_dir, call. rewrite Hmade. reflexivity. }
  rewrite (main_mkdir_raises _ _ _ _ Hdir).
  eexists. split; [reflexivity |]. repeat split.
Qed.

(** X14.  A browser that starts but dies before its script timeout is
    set is never quit: [create_driver] raises after Chrome has started,
    so [main] holds no session; it exits with code 1 and the record
    shows the start of Chrome, the failed setting, and no quit. *)
Theorem main_late_launch_failure args (w w0 : World E) d e :
  let dir := main_session_dir args (host_program_dir (host w)) in
  let opts := build_chrome_options dir
                (headless args || selenium_headless (host w0)) in
  ensure_dir dir w = (Ok tt, w0) ->
  reply_out (wd_chrome opts (host w0)) = Ok d ->
  reply_out (wd_set_script_timeout d 20 (reply_next (wd_chrome opts (host w0))))
  = Raise e ->
  exists w',
    script args w = (Exit 1, w') /\
    calls w' = calls w ++ [CMkdir dir; CChrome opts; CSetScriptTimeout d 20] /\
    quit_calls w' = quit_calls w.
Proof.
  intros dir opts Hdir Hchrome Htimeout.
  assert (Hnew : create_driver (headless args || selenium_headless (host w0))
                               (Some dir) w0
                 = (Raise e,
                    answered (CSetScriptTimeout d 20)
                      (wd_set_script_timeout d 20
                         (reply_next (wd_chrome opts (host w0))))
                      (answered (CChrome opts) (wd_chrome opts (host w0)) w0))).
  { unfold create_driver, bind, call, ret. cbv beta iota zeta. fold dir. fold opts.
    rewrite Hchrome. cbn [host answered]. rewrite Htimeout. reflexivity. }
  destruct (main_launch_fails_late args w w0 d e Hdir Hchrome Htimeout)
    as [w' [Hrun Hq]].
  exists w'. split; [exact Hrun |]. split; [| exact Hq].
  unfold script in Hrun. rewrite (main_launch_raises _ _ _ _ _ Hdir Hnew) in Hrun.
  inversion Hrun; subst. cbn [calls answered].
  unfold ensure_dir, call in Hdir. inversion Hdir; subst. cbn [calls answered].
  rewrite <- !app_assoc. reflexivity.
Qed.
End Launch.

Example main_headless_option_witness :
  exists r w' opts rest,
    main (H := fake headless_by_env) cli fresh = (r, w') /\
    calls w' = CMkdir (PathJoin (PathOf "/opt/runner") ".chrome-session")
               :: CChrome opts :: rest /\
    In "--headless=new" opts.
Proof.
  destruct (main_headless_option (H := fake headless_by_env) cli fresh eq_refl)
    as [r [w' [opts [rest [Hmain [Hcalls Hiff]]]]]].
  exists r, w', opts, rest. split; [exact Hmain |]. split; [exact Hcalls |].
  apply Hiff. right. exists "TRUE". split; reflexivity.
Defined.

Example main_session_dir_override_witness :
  exists r w' rest,
    main (H := fake sunny) cli_profile fresh = (r, w') /\
    calls w' = CMkdir (PathOf "/data//profile/") :: rest /\
    (Ok tt = Ok tt ->
     exists h rest',
       rest = CChrome (build_chrome_options (PathOf "/data//profile/") h) :: rest' /\
       hd_error (build_chrome_options (PathOf "/data//profile/") h)
       = Some "--user-data-dir=/data/profile").
Proof.
  apply (main_session_dir_override (H := fake sunny) cli_profile fresh
           "/data//profile/").
  - reflexivity.
  - discriminate.
Defined.

Example main_launch_failure_witness :
  exists w',
    script (H := fake no_chrome) cli fresh = (Exit 1, w') /\
    stderr w' = ["Failed to start Chrome: chromedriver not found"] /\
    stdout w' = [] /\
    calls w' = [ CMkdir (PathJoin (PathOf "/opt/runner") ".chrome-session");
                 CChrome (build_chrome_options
                            (PathJoin (PathOf "/opt/runner") ".chrome-session")
                            false) ] /\
    quit_calls w' = [].
Proof.
  edestruct (main_launch_failure (H := fake no_chrome) cli fresh) as [w' Hw].
  - vm_compute. reflexivity.
  - vm_compute. reflexivity.
  - exists w'. exact Hw.
Defined.

Example main_mkdir_failure_witness :
  exists w',
    main (H := fake read_only_disk) cli fresh
    = (Raise (OtherException "Permission denied"), w') /\
    calls w' = [CMkdir (PathJoin (PathOf "/opt/runner") ".chrome-session")] /\
    stdout w' = [] /\ stderr w' = [].
Proof.
  apply (main_mkdir_failure (H := fake read_only_disk) cli fresh). reflexivity.
Defined.

Example main_late_launch_failure_witness :
  exists w',
    script (H := fake dies_at_birth) cli fresh = (Exit 1, w') /\
    calls w' = [ CMkdir (PathJoin (PathOf "/opt/runner") ".chrome-session");
                 CChrome (build_chrome_options
                            (PathJoin (PathOf "/opt/runner") ".chrome-session")
                            false);
                 CSetScriptTimeout 1%nat 20 ] /\
    quit_calls w' = [].
Proof.
  edestruct (main_late_launch_failure (H := fake dies_at_birth) cli fresh)
    as [w' Hw].
  - vm_compute. reflexivity.
  - vm_compute. reflexivity.
  - vm_compute. reflexivity.
  - exists w'. exact Hw.
Defined.
